(** * Bank statement to accounting vouchers ([main.py])

    A shallow embedding of the statement normaliser ([parse_csv]), the
    account classifier ([map_entry_to_accounts]), the voucher builder
    ([build_vouchers]) and the page and voucher layout
    ([render_vouchers_to_pdf], [draw_voucher]), followed by the properties
    of the specification that were checked against them.

    Conventions of the embedding:
    - a Python [str] is a [string] (its UTF-8 bytes; containment of one
      valid UTF-8 string in another is the same on bytes and on code points);
    - a Python [int] is a [Z];
    - an amount is a binary64 float, kept as a [spec_float]: only [== 0],
      [!= 0] and [abs] are applied to amounts, and those are exact;
    - a coordinate is a float in the source and an exact rational [Q] here:
      the layout properties are about the formulas, not about rounding;
    - a raised exception is the [Raise] case of [result];
    - the canvas is the list of drawing operations it has received;
    - functions of the Python library, pandas and reportlab whose bodies are
      not part of the program are the fields of the class [PyLib]. *)

From Stdlib Require Import String Ascii List Bool ZArith QArith Lia Lqa.
From Stdlib Require Import Floats.SpecFloat.
From Stdlib Require Import Numbers.DecimalString Numbers.DecimalN.
Import ListNotations.

Local Open Scope string_scope.
Local Open Scope list_scope.
Local Open Scope Z_scope.

(* ================================================================== *)
(** * Python values *)

(** Exceptions the program raises or lets through: its own [ValueError]s,
    the division by zero, and the error of [pd.to_datetime] on a value it
    cannot read. *)
Inductive exn : Type :=
| ValueError (msg : string)
| ZeroDivisionError
| DateParseError.

Inductive result (A : Type) : Type :=
| Ok (a : A)
| Raise (e : exn).
Arguments Ok {A} a.
Arguments Raise {A} e.

Definition bind {A B : Type} (r : result A) (k : A -> result B) : result B :=
  match r with
  | Ok a => k a
  | Raise e => Raise e
  end.

Notation "x <- r ;; k" := (bind r (fun x => k))
  (at level 61, r at next level, right associativity).

(** [Series.apply(f)]: [f] on every element in order; the first exception
    ends the traversal and nothing is returned. *)
Fixpoint apply_each {A B : Type} (f : A -> result B) (xs : list A) : result (list B) :=
  match xs with
  | [] => Ok []
  | x :: rest =>
      y <- f x ;;
      ys <- apply_each f rest ;;
      Ok (y :: ys)
  end.

(** Truth value of a [str]: only the empty string is false. *)
Definition str_truthy (s : string) : bool :=
  match s with
  | EmptyString => false
  | String _ _ => true
  end.

(** [k in s] on strings: [k] is a prefix of [s] or occurs in its tail. *)
Fixpoint str_in (k s : string) : bool :=
  if prefix k s then true
  else match s with
       | EmptyString => false
       | String _ rest => str_in k rest
       end.

(** [a or b] on strings. *)
Definition str_or (a b : string) : string :=
  if str_truthy a then a else b.

(** A float is NaN. *)
Definition SFis_nan (x : spec_float) : bool :=
  match x with
  | S754_nan => true
  | _ => false
  end.

Definition float_zero : spec_float := S754_zero false.

(** [x == 0] and [x != 0] on binary64 (both zeros compare equal to 0, NaN
    compares unequal to everything). *)
Definition float_eq0 (x : spec_float) : bool := SFeqb x float_zero.
Definition float_ne0 (x : spec_float) : bool := negb (SFeqb x float_zero).

(** [datetime.datetime]. *)
Record datetime : Type := mkDatetime {
  year : Z; month : Z; day : Z;
  hour : Z; minute : Z; second : Z; microsecond : Z
}.

(** A cell of the frame [pd.read_csv] returns: missing, text, a number, or
    (never from [read_csv], but [parse_date] tests for it) a datetime. *)
Inductive cell : Type :=
| NaN
| Str (s : string)
| Num (x : spec_float)
| Dt (d : datetime).

(** [pd.isna]. *)
Definition isna (c : cell) : bool :=
  match c with
  | NaN => true
  | Num x => SFis_nan x
  | _ => false
  end.

(** Library functions the program calls and does not define. *)
Class PyLib : Type := {
  (** [str.strip()] *)
  str_strip : string -> string;
  (** [str(x)] for a float and for a datetime *)
  float_str : spec_float -> string;
  datetime_str : datetime -> string;
  (** [datetime.strptime(s, fmt)]; [None] is its [ValueError] *)
  strptime : string -> string -> option datetime;
  (** [pd.to_datetime(value)]; [None] is the error it raises on what it
      cannot read *)
  pd_to_datetime : cell -> option datetime;
  (** [pd.to_numeric(..., errors="coerce")] on one cell: NaN when the cell
      is not a number *)
  pd_to_numeric : cell -> spec_float;
  (** [d.strftime(fmt)] *)
  strftime : datetime -> string -> string;
  (** [f"{x:,.2f}"] *)
  format_amount : spec_float -> string
}.

(* ================================================================== *)
(** * Account classifier *)

(** A value of a rule's [keyword] entry as YAML loads it. *)
Inductive pyval : Type :=
| PyNone
| PyStr (s : string).

(** A mapping rule is a dict read with [.get]: every key may be absent. *)
Module Rule.
Record t : Type := mk {
  keyword : option pyval;
  debit_account : option string;
  credit_account : option string
}.
End Rule.

(** [rule.get("keyword")]: [None] when the key is absent. *)
Definition rule_get_keyword (rule : Rule.t) : pyval :=
  match Rule.keyword rule with
  | Some v => v
  | None => PyNone
  end.

(** [d.get(key, default)] on an optional entry. *)
Definition get_default {A : Type} (entry : option A) (default : A) : A :=
  match entry with
  | Some v => v
  | None => default
  end.

(** [keyword and keyword in summary]. *)
Definition rule_matches (rule : Rule.t) (summary : string) : bool :=
  match rule_get_keyword rule with
  | PyNone => false
  | PyStr keyword => str_truthy keyword && str_in keyword summary
  end.

Fixpoint map_entry_to_accounts (summary : string) (mapping_rules : list Rule.t)
    (fallback_debit fallback_credit : string) : string * string :=
  match mapping_rules with
  | [] => (fallback_debit, fallback_credit)
  | rule :: rest =>
      if rule_matches rule summary then
        (get_default (Rule.debit_account rule) fallback_debit,
         get_default (Rule.credit_account rule) fallback_credit)
      else map_entry_to_accounts summary rest fallback_debit fallback_credit
  end.

(* ================================================================== *)
(** * Vouchers *)

Record Voucher : Type := mkVoucher {
  number : string;
  date : datetime;
  description : string;
  debit_account : string;
  credit_account : string;
  amount : spec_float
}.

(** A row of the normalised frame: [date] and [summary] are always there,
    [debit] and [credit] only when the statement had such a column
    ([row.get(name, default)] reads them). *)
Module TransactionRow.
Record t : Type := mk {
  date : datetime;
  summary : string;
  debit : option spec_float;
  credit : option spec_float
}.
End TransactionRow.

Fixpoint zeros (n : nat) : string :=
  match n with
  | O => ""
  | S m => String "0" (zeros m)
  end.

(** [f"{n:03d}"]: the decimal digits of [|n|], zero-filled between the sign
    and the digits up to a total width of 3. *)
Definition format_03d (n : Z) : string :=
  let sign := if n <? 0 then "-" else "" in
  let digits := NilZero.string_of_uint (N.to_uint (Z.abs_N n)) in
  sign ++ zeros (3 - String.length sign - String.length digits) ++ digits.

(** The value of a non-empty string of decimal digits, and the integer a
    formatted number stands for (what [int(s)] reads back). *)
Definition digits_value (s : string) : option Z :=
  match s with
  | EmptyString => None
  | _ => option_map Z.of_uint (NilEmpty.uint_of_string s)
  end.

Definition number_value (s : string) : option Z :=
  match s with
  | EmptyString => None
  | String a rest =>
      if Ascii.eqb a "-" then option_map Z.opp (digits_value rest)
      else digits_value s
  end.

(** The amount [build_vouchers] keeps for a row: the debit, or the credit
    when the debit compares equal to 0. *)
Definition select_amount (row : TransactionRow.t) : spec_float :=
  let amount := get_default (TransactionRow.debit row) float_zero in
  if float_eq0 amount then get_default (TransactionRow.credit row) float_zero else amount.

(* ================================================================== *)
(** * Statement normaliser: tables *)

(** The frame [try_read_csv] returns: the header and the rows, a row's
    cells in header order (column labels are taken to be distinct). *)
Record DataFrame : Type := mkDataFrame {
  columns : list string;
  data : list (list cell)
}.

Definition aliases_date : list string := ["日期"; "交易日期"; "记账日期"; "发生日期"].
Definition aliases_summary : list string := ["摘要"; "附言"; "用途"; "说明"].
Definition aliases_debit : list string := ["借方金额"; "借方"; "收入"].
Definition aliases_credit : list string := ["贷方金额"; "贷方"; "支出"].

(** [name in df.columns]. *)
Definition in_columns (df_columns : list string) (name : string) : bool :=
  existsb (String.eqb name) df_columns.

Fixpoint find_column (df_columns possible_names : list string) : option string :=
  match possible_names with
  | [] => None
  | name :: rest =>
      if in_columns df_columns name then Some name
      else find_column df_columns rest
  end.

(** Truth value of an [Optional[str]]. *)
Definition opt_truthy (o : option string) : bool :=
  match o with
  | Some s => str_truthy s
  | None => false
  end.

Definition missing_columns_message : string :=
  "CSV 缺少必要的列：日期/摘要/借方或贷方金额".

Definition empty_date_message : string := "日期为空".

(** The condition of the [raise] after column resolution. *)
Definition columns_missing (date_col summary_col debit_col credit_col : option string) : bool :=
  negb (opt_truthy date_col) || negb (opt_truthy summary_col)
  || negb (opt_truthy debit_col || opt_truthy credit_col).

(** The cell of a row under the column labelled [name]; a row shorter than
    the header is missing there. *)
Fixpoint column_cell (df_columns : list string) (name : string) (values : list cell) : cell :=
  match df_columns, values with
  | c :: cs, v :: vs => if String.eqb c name then v else column_cell cs name vs
  | _, _ => NaN
  end.

(** A row after the selection and renaming of the resolved columns. *)
Module Selected.
Record t : Type := mk {
  date : cell;
  summary : cell;
  debit : option cell;
  credit : option cell
}.
End Selected.

(** [df[[...]]] and [df.rename(...)] on one row: a column is kept when its
    resolved name is true. *)
Definition select_row (df_columns : list string)
    (date_col summary_col debit_col credit_col : option string)
    (values : list cell) : Selected.t :=
  let required o := column_cell df_columns (get_default o "") values in
  let optional o := if opt_truthy o then Some (required o) else None in
  Selected.mk (required date_col) (required summary_col)
              (optional debit_col) (optional credit_col).

Definition date_formats : list string := ["%Y/%m/%d"; "%Y-%m-%d"; "%Y.%m.%d"; "%Y%m%d"].

(** The zero filter: [(df.get("debit", 0) != 0) | (df.get("credit", 0) != 0)]. *)
Definition nonzero_row (row : TransactionRow.t) : bool :=
  float_ne0 (get_default (TransactionRow.debit row) float_zero)
  || float_ne0 (get_default (TransactionRow.credit row) float_zero).

Section Program.
Context {lib : PyLib}.

(** [Voucher.formatted_date] and [Voucher.formatted_amount]. *)
Definition formatted_date (v : Voucher) : string :=
  strftime (date v) "%Y年%m月%d日".

Definition formatted_amount (v : Voucher) : string :=
  format_amount (amount v).

(* ---------------------------------------------------------------- *)
(** ** [parse_csv] *)

(** [str(value)]. *)
Definition py_str (value : cell) : string :=
  match value with
  | NaN => "nan"
  | Str s => s
  | Num x => float_str x
  | Dt d => datetime_str d
  end.

(** The [for fmt in (...)] loop of [parse_date]. *)
Fixpoint try_formats (text : string) (formats : list string) : option datetime :=
  match formats with
  | [] => None
  | fmt :: rest =>
      match strptime text fmt with
      | Some d => Some d
      | None => try_formats text rest
      end
  end.

Definition parse_date (value : cell) : result datetime :=
  if isna value then Raise (ValueError empty_date_message)
  else match value with
       | Dt d => Ok d
       | _ =>
           match try_formats (str_strip (py_str value)) date_formats with
           | Some d => Ok d
           | None =>
               (* Let pandas try its best *)
               match pd_to_datetime value with
               | Some d => Ok d
               | None => Raise DateParseError
               end
           end
       end.

(** [.fillna("").astype(str)] on one cell. *)
Definition summary_text (c : cell) : string :=
  if isna c then "" else py_str c.

(** [pd.to_numeric(..., errors="coerce").fillna(0.0)] on one cell. *)
Definition coerce_amount (c : cell) : spec_float :=
  let x := pd_to_numeric c in
  if SFis_nan x then float_zero else x.

(** The row of the normalised frame, from its parsed date and its
    selected cells. *)
Definition normalise_row (entry : datetime * Selected.t) : TransactionRow.t :=
  let '(d, sel) := entry in
  TransactionRow.mk d (summary_text (Selected.summary sel))
         (option_map coerce_amount (Selected.debit sel))
         (option_map coerce_amount (Selected.credit sel)).

Definition parse_csv (df : DataFrame) (filter_zero : bool) : result (list TransactionRow.t) :=
  let df_columns := map str_strip (columns df) in
  let date_col := find_column df_columns aliases_date in
  let summary_col := find_column df_columns aliases_summary in
  let debit_col := find_column df_columns aliases_debit in
  let credit_col := find_column df_columns aliases_credit in
  if columns_missing date_col summary_col debit_col credit_col then
    Raise (ValueError missing_columns_message)
  else
    let selected :=
      map (select_row df_columns date_col summary_col debit_col credit_col) (data df) in
    dates <- apply_each parse_date (map Selected.date selected) ;;
    let rows := map normalise_row (combine dates selected) in
    Ok (if filter_zero then filter nonzero_row rows else rows).

(* ---------------------------------------------------------------- *)
(** ** [build_vouchers] *)

(** One turn of the loop over the rows: [vouchers] is the list built so
    far. *)
Definition build_vouchers_step (mapping_rules : list Rule.t) (start_number : Z)
    (fallback_debit fallback_credit : string)
    (vouchers : list Voucher) (row : TransactionRow.t) : list Voucher :=
  let amount := select_amount row in
  if float_eq0 amount then vouchers
  else
    let '(debit_account, credit_account) :=
      map_entry_to_accounts (TransactionRow.summary row) mapping_rules fallback_debit fallback_credit in
    let description := str_or (str_strip (TransactionRow.summary row)) "银行流水" in
    let number := format_03d (start_number + Z.of_nat (List.length vouchers)) in
    vouchers ++ [mkVoucher number (TransactionRow.date row) description
                           debit_account credit_account (SFabs amount)].

Definition build_vouchers (df : list TransactionRow.t) (mapping_rules : list Rule.t)
    (start_number : Z) (fallback_debit fallback_credit : string) : list Voucher :=
  fold_left (build_vouchers_step mapping_rules start_number fallback_debit fallback_credit)
            df [].

(** The two calls of [main] that produce the vouchers. *)
Definition load_vouchers (df : DataFrame) (filter_zero : bool)
    (mapping_rules : list Rule.t) (start_number : Z)
    (fallback_debit fallback_credit : string) : result (list Voucher) :=
  rows <- parse_csv df filter_zero ;;
  Ok (build_vouchers rows mapping_rules start_number fallback_debit fallback_credit).

End Program.

(* ================================================================== *)
(** * Layout *)

Local Open Scope Q_scope.

(** [reportlab.lib.units] and [reportlab.lib.pagesizes]. *)
Definition inch : Q := 72.
Definition cm : Q := inch / 2.54.
Definition mm : Q := cm * 0.1.
Definition A4 : Q * Q := (210 * mm, 297 * mm).

Definition mm_to_pt (value : Q) : Q := value * mm.

Definition CH_FONT : string := "CNFont".

(** The entries of the configuration the layout reads with [.get]. *)
Record Config : Type := mkConfig {
  margin_mm : option Q;
  spacing_mm : option Q;
  company_name : option string
}.

(** What the canvas is asked to draw ([stroke=1, fill=0] throughout). *)
Inductive canvas_op : Type :=
| roundRect (x y width height radius : Q)
| rect (x y width height : Q)
| line (x1 y1 x2 y2 : Q)
| setFont (name : string) (size : Q)
| drawString (x y : Q) (text : string)
| drawCentredString (x y : Q) (text : string)
| drawRightString (x y : Q) (text : string)
| showPage
| save.

(** The local variables of [draw_voucher], as functions of its box. *)
Definition padding : Q := mm_to_pt 6.
Definition line_height : Q := mm_to_pt 6.
Definition title_y (y height : Q) : Q := y + height - padding.
Definition info_y (y height : Q) : Q := title_y y height - line_height * 2 - mm_to_pt 2.
Definition table_top (y height : Q) : Q := info_y y height - line_height * 2.
Definition table_left (x : Q) : Q := x + padding.
Definition table_width (width : Q) : Q := width - 2 * padding.
Definition summary_width (width : Q) : Q := table_width width * 0.25.
Definition account_width (width : Q) : Q := table_width width * 0.38.
Definition amount_width (width : Q) : Q :=
  (table_width width - summary_width width - account_width width) / 2.
Definition table_height : Q := line_height * 4 + mm_to_pt 4.
Definition table_bottom (y height : Q) : Q := table_top y height - table_height.

Definition positions : list string := ["制单"; "审核"; "出纳"; "记账"; "复核"].

(** [enumerate]. *)
Fixpoint enumerate_from {A : Type} (i : Z) (xs : list A) : list (Z * A) :=
  match xs with
  | [] => []
  | x :: rest => (i, x) :: enumerate_from (i + 1)%Z rest
  end.

Section Drawing.
Context {lib : PyLib}.

Definition draw_voucher (voucher : Voucher) (x y width height : Q)
    (config : Config) : list canvas_op :=
  let title_y := title_y y height in
  let company := get_default (company_name config) "公司名称" in
  let info_y := info_y y height in
  let table_top := table_top y height in
  let table_left := table_left x in
  let table_width := table_width width in
  let summary_width := summary_width width in
  let account_width := account_width width in
  let amount_width := amount_width width in
  let table_bottom := table_bottom y height in
  let header_y := table_top - line_height + mm_to_pt 1 in
  let debit_y := table_top - line_height * 2 + mm_to_pt 1 in
  let credit_y := debit_y - line_height in
  let total_y := credit_y - line_height in
  let footer_y := y + padding + mm_to_pt 2 in
  let spacing := table_width / inject_Z (Z.of_nat (List.length positions)) in
  [ roundRect x y width height 4;
    (* Header *)
    setFont CH_FONT 14;
    drawCentredString (x + width / 2) (title_y - mm_to_pt 2) company;
    setFont CH_FONT 12;
    drawCentredString (x + width / 2) (title_y - line_height - mm_to_pt 1) "记账凭证";
    setFont CH_FONT 10;
    drawString (x + padding) info_y "凭证字：记";
    drawRightString (x + width - padding) info_y ("编号：" ++ number voucher)%string;
    drawString (x + padding) (info_y - line_height)
               ("日期：" ++ formatted_date voucher)%string;
    (* Table layout *)
    rect table_left table_bottom table_width table_height;
    (* Column separators *)
    line (table_left + summary_width) table_bottom (table_left + summary_width) table_top;
    line (table_left + summary_width + account_width) table_bottom
         (table_left + summary_width + account_width) table_top;
    line (table_left + summary_width + account_width + amount_width) table_bottom
         (table_left + summary_width + account_width + amount_width) table_top ]
  (* Row separators *)
  ++ map (fun i : Z =>
            line table_left (table_top - inject_Z i * line_height)
                 (table_left + table_width) (table_top - inject_Z i * line_height))
         [1; 2; 3]%Z
  ++ [ (* Headers *)
    setFont CH_FONT 10;
    drawCentredString (table_left + summary_width / 2) header_y "摘要";
    drawCentredString (table_left + summary_width + account_width / 2) header_y "科目";
    drawCentredString (table_left + summary_width + account_width + amount_width / 2)
                      header_y "借方金额";
    drawCentredString (table_left + summary_width + account_width + amount_width * 1.5)
                      header_y "贷方金额";
    (* Debit row *)
    setFont CH_FONT 10;
    drawString (table_left + mm_to_pt 2) debit_y (description voucher);
    drawString (table_left + summary_width + mm_to_pt 2) debit_y (debit_account voucher);
    drawRightString (table_left + summary_width + account_width + amount_width - mm_to_pt 2)
                    debit_y (formatted_amount voucher);
    (* Credit row *)
    drawString (table_left + summary_width + mm_to_pt 2) credit_y (credit_account voucher);
    drawRightString
      (table_left + summary_width + account_width + 2 * amount_width - mm_to_pt 2)
      credit_y (formatted_amount voucher);
    (* Total row *)
    drawString (table_left + mm_to_pt 2) total_y "合计";
    drawRightString (table_left + summary_width + account_width + amount_width - mm_to_pt 2)
                    total_y (formatted_amount voucher);
    (* Footer signatures *)
    setFont CH_FONT 9 ]
  ++ map (fun '(i, label) =>
            drawString (table_left + spacing * inject_Z i) footer_y
                       (label ++ "：________________")%string)
         (enumerate_from 0%Z positions).

(** What [render_vouchers_to_pdf] asks for, one entry per call. *)
Inductive render_call : Type :=
| call_draw_voucher (voucher : Voucher) (x y width height : Q)
| call_showPage
| call_save.

(** The loop over [enumerate(vouchers)]: [idx] is the index of the head of
    [vouchers], [y] the vertical cursor, [total] is [len(vouchers)] and
    [top] is [page_height - margin - voucher_height]. *)
Fixpoint render_loop (vouchers_per_page total : Z)
    (x top width height spacing : Q)
    (idx : Z) (y : Q) (vouchers : list Voucher) : list render_call :=
  match vouchers with
  | [] => []
  | voucher :: rest =>
      call_draw_voucher voucher x y width height ::
      (if (((idx + 1) mod vouchers_per_page =? 0) && negb (idx + 1 =? total))%Z
       then call_showPage ::
            render_loop vouchers_per_page total x top width height spacing
                        (idx + 1)%Z top rest
       else render_loop vouchers_per_page total x top width height spacing
                        (idx + 1)%Z (y - (height + spacing)) rest)
  end.

Definition config_margin (config : Config) : Q :=
  mm_to_pt (get_default (margin_mm config) 12).
Definition config_spacing (config : Config) : Q :=
  mm_to_pt (get_default (spacing_mm config) 6).

(** [voucher_height] and [voucher_width] of [render_vouchers_to_pdf]
    (for a divisor that is not 0). *)
Definition voucher_height (vouchers_per_page : Z) (config : Config) : Q :=
  let '(page_width, page_height) := A4 in
  (page_height - 2 * config_margin config
   - config_spacing config * inject_Z (vouchers_per_page - 1))
  / inject_Z vouchers_per_page.

Definition voucher_width (config : Config) : Q :=
  let '(page_width, page_height) := A4 in
  page_width - 2 * config_margin config.

(** The top of a page: where the cursor starts and where a page break
    puts it back. *)
Definition page_top (vouchers_per_page : Z) (config : Config) : Q :=
  let '(page_width, page_height) := A4 in
  page_height - config_margin config - voucher_height vouchers_per_page config.

(** The calls of [render_vouchers_to_pdf], in order. The division by
    [vouchers_per_page] raises when it is 0, before the loop. *)
Definition render_calls (vouchers : list Voucher) (vouchers_per_page : Z)
    (config : Config) : result (list render_call) :=
  let margin := config_margin config in
  let spacing := config_spacing config in
  if (vouchers_per_page =? 0)%Z then Raise ZeroDivisionError
  else
    let voucher_height := voucher_height vouchers_per_page config in
    let voucher_width := voucher_width config in
    let x := margin in
    let y := page_top vouchers_per_page config in
    Ok (render_loop vouchers_per_page (Z.of_nat (List.length vouchers))
                    x y voucher_width voucher_height spacing 0%Z y vouchers
        ++ [call_save]).

(** A call, as the operations the canvas receives. *)
Definition perform (config : Config) (c : render_call) : list canvas_op :=
  match c with
  | call_draw_voucher voucher x y width height =>
      draw_voucher voucher x y width height config
  | call_showPage => [showPage]
  | call_save => [save]
  end.

Definition render_vouchers_to_pdf (vouchers : list Voucher) (vouchers_per_page : Z)
    (config : Config) : result (list canvas_op) :=
  calls <- render_calls vouchers vouchers_per_page config ;;
  Ok (flat_map (perform config) calls).

End Drawing.

(* ================================================================== *)
(** * Single-voucher documents, files and the command line *)

(** What the program does to the outside: a line printed, a font
    registered under a name, a PDF saved under a path with the operations
    its canvas received. *)
Inductive event : Type :=
| Printed (text : string)
| FontRegistered (name path : string)
| PdfSaved (path : string) (ops : list canvas_op).

(** [voucher_{voucher.number}.pdf]. *)
Definition single_voucher_name (voucher : Voucher) : string :=
  ("voucher_" ++ number voucher ++ ".pdf")%string.

Section SingleVouchers.
Context {lib : PyLib}.
(** [os.path.join] and [os.path.dirname]. *)
Variables (path_join : string -> string -> string) (path_dirname : string -> string).

(** The documents [render_single_vouchers] saves, in order: for each
    voucher its path and the operations of its canvas. *)
Definition render_single_vouchers (vouchers : list Voucher) (output_dir : string)
    (config : Config) : list (string * list canvas_op) :=
  map (fun voucher =>
         let path := path_join output_dir (single_voucher_name voucher) in
         let '(width, height) := A4 in
         let margin := mm_to_pt (get_default (margin_mm config) 12) in
         let voucher_width := width - 2 * margin in
         let voucher_height := height - 2 * margin in
         (path,
          draw_voucher voucher margin (height - margin - voucher_height)
                       voucher_width voucher_height config
          ++ [save]))
      vouchers.

End SingleVouchers.

(** ** [register_chinese_font] *)

Definition font_paths : list string :=
  ["C:\\Windows\\Fonts\\simsun.ttc"; "C:\\Windows\\Fonts\\simhei.ttf"]%string.

Definition no_font_warning : string :=
  "WARNING: no Chinese font file found, Chinese characters may render as squares.".

Section Fonts.
(** [os.path.exists], and [pdfmetrics.registerFont(TTFont(name, path))]:
    [None] when it succeeds, the text of the exception when it raises. *)
Variables (path_exists : string -> bool) (register_font : string -> string -> option string).

(** The loop over the font paths, ended by the [return] of the first
    registration that succeeds, and the warning after it. *)
Fixpoint register_fonts (paths : list string) : list event :=
  match paths with
  | [] => [Printed no_font_warning]
  | path :: rest =>
      if path_exists path then
        match register_font CH_FONT path with
        | None => [FontRegistered CH_FONT path;
                   Printed ("Using Chinese font: " ++ path)%string]
        | Some exc =>
            Printed ("注册中文字体失败 " ++ path ++ ": " ++ exc)%string
            :: register_fonts rest
        end
      else register_fonts rest
  end.

Definition register_chinese_font : list event := register_fonts font_paths.

End Fonts.

(** ** YAML files *)

(** What [yaml.safe_load] returns, for the documents the program reads. *)
#[warnings="-register-all"]
Inductive yaml : Type :=
| YNull
| YBool (b : bool)
| YInt (n : Z)
| YFloat (x : spec_float)
| YStr (s : string)
| YList (items : list yaml)
| YDict (entries : list (yaml * yaml)).

(** Truth value of a loaded document. *)
Definition yaml_truthy (v : yaml) : bool :=
  match v with
  | YNull => false
  | YBool b => b
  | YInt n => negb (n =? 0)%Z
  | YFloat x => float_ne0 x
  | YStr s => str_truthy s
  | YList items => match items with [] => false | _ :: _ => true end
  | YDict entries => match entries with [] => false | _ :: _ => true end
  end.

Definition mapping_format_message : string := "mapping.yaml 内容格式需要是列表".

Section Files.
(** [os.path.exists], and the document [yaml.safe_load] reads from the file
    at a path (a readable file of well-formed YAML). *)
Variables (path_exists : string -> bool) (safe_load : string -> yaml).

Definition load_yaml_file (path : string) : yaml :=
  let data := safe_load path in
  if yaml_truthy data then data else YDict [].

Definition load_config (path : string) : yaml :=
  if negb (path_exists path) then YDict []
  else load_yaml_file path.

Definition load_mapping (path : string) : result (list yaml) :=
  if negb (path_exists path) then Ok []
  else
    let data := load_yaml_file path in
    match data with
    | YList items => Ok items
    | _ => Raise (ValueError mapping_format_message)
    end.

End Files.

(** ** [try_read_csv] *)

(** What [pd.read_csv(csv_path, encoding=enc)] does: it returns a frame,
    raises [UnicodeDecodeError] (with the text [str(exc)]), or raises
    something else. *)
Inductive read_outcome : Type :=
| ReadOk (df : DataFrame)
| ReadUndecodable (text : string)
| ReadFailed (text : string).

(** What [try_read_csv] does: it returns a frame, reaches its own [raise]
    with the reason it has composed, or lets the other exception through.
    (Of the [raise] the model records that it is reached and with what
    reason, not the class of the exception Python makes of it.) *)
Inductive csv_outcome : Type :=
| CsvOk (df : DataFrame)
| CsvUndecodable (reason : string)
| CsvFailed (text : string).

Definition encodings : list string := ["utf-8"; "gbk"; "gb2312"]%string.

(** The loop over the encodings; [errors] are the messages collected so
    far. *)
Fixpoint try_encodings (read_csv : string -> read_outcome) (encs errors : list string)
    : csv_outcome :=
  match encs with
  | [] => CsvUndecodable ("尝试的编码失败：" ++ String.concat " | " errors)%string
  | enc :: rest =>
      match read_csv enc with
      | ReadOk df => CsvOk df
      | ReadUndecodable text => try_encodings read_csv rest (errors ++ [text])
      | ReadFailed text => CsvFailed text
      end
  end.

Definition try_read_csv (read_csv : string -> string -> read_outcome) (csv_path : string)
    : csv_outcome :=
  try_encodings (read_csv csv_path) encodings [].

(** ** [main] *)

(** The parsed command line. *)
Module Args.
Record t : Type := mk {
  input : string;
  output : string;
  mapping : string;
  config : string;
  single : bool;
  start_number : option Z;
  vouchers_per_page : option Z
}.
End Args.

(** The entries of the configuration [main] reads with [.get], each with
    the type [main] uses it at ([filter_zero_amounts] by its truth value),
    and the entries the layout reads. *)
Module Settings.
Record t : Type := mk {
  start_number : option Z;
  vouchers_per_page : option Z;
  filter_zero_amounts : option bool;
  fallback_debit_account : option string;
  fallback_credit_account : option string;
  layout : Config
}.
End Settings.

Definition no_vouchers_message : string :=
  "没有需要生成的凭证，检查 CSV 内容或过滤规则。".

(** Truth value of an [Optional[int]]. *)
Definition opt_int_truthy (o : option Z) : bool :=
  match o with
  | Some n => negb (n =? 0)%Z
  | None => false
  end.

Section Main.
Context {lib : PyLib}.
Variables (path_join : string -> string -> string) (path_dirname : string -> string).

(** [main] from the choice of the start number on. What comes before has
    produced its parameters: [args] the parsed command line, [config] and
    [mapping_rules] the two YAML files, [df] the frame [try_read_csv] reads
    at [args.input]. The result is what has been printed and saved, in
    order, or the exception that ended the run (nothing is printed or saved
    before any of them). *)
Definition main (args : Args.t) (config : Settings.t) (mapping_rules : list Rule.t)
    (df : DataFrame) : result (list event) :=
  let start_number :=
    match Args.start_number args with
    | Some n => n
    | None => get_default (Settings.start_number config) 1%Z
    end in
  let vouchers_per_page :=
    if opt_int_truthy (Args.vouchers_per_page args)
    then get_default (Args.vouchers_per_page args) 0%Z
    else get_default (Settings.vouchers_per_page config) 3%Z in
  let filter_zero := get_default (Settings.filter_zero_amounts config) true in
  let fallback_debit := get_default (Settings.fallback_debit_account config) "" in
  let fallback_credit := get_default (Settings.fallback_credit_account config) "" in
  rows <- parse_csv df filter_zero ;;
  let vouchers :=
    build_vouchers rows mapping_rules start_number fallback_debit fallback_credit in
  match vouchers with
  | [] => Ok [Printed no_vouchers_message]
  | _ :: _ =>
      ops <- render_vouchers_to_pdf vouchers vouchers_per_page (Settings.layout config) ;;
      let summary :=
        [PdfSaved (Args.output args) ops;
         Printed ("已生成汇总 PDF：" ++ Args.output args)%string] in
      if Args.single args then
        let output_dir := path_join (path_dirname (Args.output args)) "single" in
        Ok (summary
            ++ map (fun doc => PdfSaved (fst doc) (snd doc))
                   (render_single_vouchers path_join vouchers output_dir
                                           (Settings.layout config))
            ++ [Printed ("已生成单张凭证 PDF 至：" ++ output_dir)%string])
      else Ok summary
  end.

End Main.

(* ================================================================== *)
(** * A small executable library

    Stand-ins for the library functions of [PyLib], enough to run the
    program on concrete statements: ASCII whitespace, four-digit years and
    two-digit months and days, whole amounts. *)

Module Sample.
Local Open Scope Z_scope.

Definition is_space (c : ascii) : bool :=
  let n := nat_of_ascii c in
  ((9 <=? n) && (n <=? 13) || (n =? 32))%nat.

Fixpoint lstrip (s : string) : string :=
  match s with
  | String c rest => if is_space c then lstrip rest else s
  | EmptyString => EmptyString
  end.

Fixpoint rstrip (s : string) : string :=
  match s with
  | EmptyString => EmptyString
  | String c rest =>
      match rstrip rest with
      | EmptyString => if is_space c then EmptyString else String c EmptyString
      | kept => String c kept
      end
  end.

Definition strip (s : string) : string := lstrip (rstrip s).

(** [text] read as year, month and day with [sep] between them. *)
Definition read_ymd (sep text : string) : option datetime :=
  let k := String.length sep in
  if negb (String.length text =? 8 + 2 * k)%nat then None
  else if negb (String.eqb (substring 4 k text) sep
                && String.eqb (substring (6 + k) k text) sep) then None
  else
    match digits_value (substring 0 4 text),
          digits_value (substring (4 + k) 2 text),
          digits_value (substring (6 + 2 * k) 2 text) with
    | Some y, Some m, Some d =>
        if (1 <=? m) && (m <=? 12) && (1 <=? d) && (d <=? 31)
        then Some (mkDatetime y m d 0 0 0 0)
        else None
    | _, _, _ => None
    end.

Definition read_date (text fmt : string) : option datetime :=
  if String.eqb fmt "%Y/%m/%d" then read_ymd "/" text
  else if String.eqb fmt "%Y-%m-%d" then read_ymd "-" text
  else if String.eqb fmt "%Y.%m.%d" then read_ymd "." text
  else if String.eqb fmt "%Y%m%d" then read_ymd "" text
  else None.

Definition to_datetime (value : cell) : option datetime :=
  match value with
  | Dt d => Some d
  | _ => None
  end.

Definition whole (n : Z) : spec_float :=
  match n with
  | Z0 => S754_zero false
  | Zpos p => S754_finite false p 0
  | Zneg p => S754_finite true p 0
  end.

Definition to_numeric (value : cell) : spec_float :=
  match value with
  | Num x => x
  | Str s => match digits_value s with
             | Some n => whole n
             | None => S754_nan
             end
  | _ => S754_nan
  end.

Definition decimal (n : Z) : string := NilZero.string_of_int (Z.to_int n).

Definition float_text (suffix : string) (x : spec_float) : string :=
  match x with
  | S754_zero _ => "0" ++ suffix
  | S754_finite s m 0 => decimal (if s then Zneg m else Zpos m) ++ suffix
  | S754_infinity s => if s then "-inf" else "inf"
  | _ => "nan"
  end.

Definition two_digits (n : Z) : string :=
  (if n <? 10 then "0" else "") ++ decimal n.

Definition date_text (d : datetime) (fmt : string) : string :=
  if String.eqb fmt "%Y年%m月%d日"
  then decimal (year d) ++ "年" ++ two_digits (month d) ++ "月"
       ++ two_digits (day d) ++ "日"
  else fmt.

#[export] Instance lib : PyLib := {|
  str_strip := strip;
  float_str := float_text ".0";
  datetime_str := fun d => date_text d "%Y年%m月%d日";
  strptime := read_date;
  pd_to_datetime := to_datetime;
  pd_to_numeric := to_numeric;
  strftime := date_text;
  format_amount := float_text ".00"
|}.

(** A statement whose header uses secondary aliases and stray blanks. Its
    third row has a debit cell that is no number, its fourth row has no
    amount at all. *)
Definition statement : DataFrame :=
  mkDataFrame [" 交易日期"; "附言 "; "收入"; "支出"]
    [ [Str "2024/01/05"; Str "办公用品采购"; Str "0"; Str "500"];
      [Str "2024/01/06"; NaN; Str "1200"; Str "0"];
      [Str "2024-01-07"; Str "发放3月工资"; Str "abc"; Str "8000"];
      [Str "2024.01.08"; Str "手续费"; Str "0"; NaN];
      [Str "20240109"; Str "货款"; Str "300"; Str "0"] ].

(** The same statement with the date of its second row missing. *)
Definition statement_without_a_date : DataFrame :=
  mkDataFrame [" 交易日期"; "附言 "; "收入"; "支出"]
    [ [Str "2024/01/05"; Str "办公用品采购"; Str "0"; Str "500"];
      [NaN; Str "工资"; Str "1200"; Str "0"] ].

Definition rules : list Rule.t :=
  [ Rule.mk (Some (PyStr "工资")) (Some "管理费用-工资") (Some "银行存款");
    Rule.mk (Some (PyStr "")) (Some "A") (Some "B");
    Rule.mk (Some (PyStr "采购")) (Some "管理费用-办公费") None ].

Definition rows : list TransactionRow.t :=
  [ TransactionRow.mk (mkDatetime 2024 1 5 0 0 0 0) "办公用品采购" (Some (whole 0)) (Some (whole 500));
    TransactionRow.mk (mkDatetime 2024 1 6 0 0 0 0) "" (Some (whole 1200)) (Some (whole 0));
    TransactionRow.mk (mkDatetime 2024 1 8 0 0 0 0) "手续费" (Some (whole 0)) (Some (whole 0));
    TransactionRow.mk (mkDatetime 2024 1 9 0 0 0 0) "退款" (Some (whole (-300))) None ].

Definition voucher : Voucher :=
  mkVoucher "001" (mkDatetime 2024 1 5 0 0 0 0) "办公用品采购"
            "管理费用-办公费" "银行存款" (whole 500).

Definition vouchers : list Voucher :=
  [ voucher;
    mkVoucher "002" (mkDatetime 2024 1 6 0 0 0 0) "银行流水"
              "其他应收款" "银行存款" (whole 1200);
    mkVoucher "003" (mkDatetime 2024 1 7 0 0 0 0) "发放3月工资"
              "管理费用-工资" "银行存款" (whole 8000);
    mkVoucher "004" (mkDatetime 2024 1 9 0 0 0 0) "货款"
              "其他应收款" "银行存款" (whole 300) ].

(** No entry: the margin is 12 mm and the spacing 6 mm. *)
Definition config : Config := mkConfig None None None.

(** A margin of 200 mm, more than an A4 page can give. *)
Definition wide_margin_config : Config := mkConfig (Some 200%Q) None None.
End Sample.

(** Stand-ins for the file system and the command line. *)
Module SampleFiles.

(** [os.path.join] and [os.path.dirname] for relative names with [/]. *)
Definition join (dir name : string) : string :=
  match dir with
  | EmptyString => name
  | _ => (dir ++ "/" ++ name)%string
  end.

Fixpoint last_slash (s : string) (i : nat) (found : option nat) : option nat :=
  match s with
  | EmptyString => found
  | String c rest => last_slash rest (S i) (if Ascii.eqb c "/" then Some i else found)
  end.

Definition dirname (path : string) : string :=
  match last_slash path 0 None with
  | Some i => substring 0 i path
  | None => EmptyString
  end.

(** A statement whose second row has a date nothing reads and whose third
    row has none. *)
Definition statement_with_bad_dates : DataFrame :=
  mkDataFrame ["日期"; "摘要"; "借方"]%string
    [ [Str "2024/01/05"; Str "货款"; Str "500"];
      [Str "someday"; Str "工资"; Str "0"];
      [NaN; Str "手续费"; Str "1200"] ].

(** A statement all of whose amounts are zero or unreadable. *)
Definition statement_without_amounts : DataFrame :=
  mkDataFrame ["日期"; "摘要"; "借方"; "贷方"]%string
    [ [Str "2024/01/05"; Str "货款"; Str "0"; NaN];
      [Str "2024/01/06"; Str "工资"; Str "n/a"; Str "0"] ].

Definition args : Args.t :=
  Args.mk "bank.csv" "output/vouchers.pdf" "mapping.yaml" "config.yaml" true None None.

(** A configuration that asks for 0 vouchers per page. *)
Definition settings : Settings.t :=
  Settings.mk (Some 7%Z) (Some 0%Z) (Some false) None None Sample.config.

End SampleFiles.

(* ================================================================== *)
(** * Vocabulary of the properties *)

(** ** Classifier *)

(** [k] occurs in [s]. *)
Definition Substring (k s : string) : Prop :=
  exists pre post : string, s = (pre ++ k ++ post)%string.

(** The rule decides the classification of [summary]: its keyword is a
    non-empty string that occurs in [summary]. *)
Definition Matches (rule : Rule.t) (summary : string) : Prop :=
  exists kw : string,
    rule_get_keyword rule = PyStr kw /\ kw <> EmptyString /\ Substring kw summary.

(** The account pair a rule gives, its missing sides taken from the
    fallbacks. *)
Definition rule_accounts (rule : Rule.t) (fallback_debit fallback_credit : string)
    : string * string :=
  (get_default (Rule.debit_account rule) fallback_debit,
   get_default (Rule.credit_account rule) fallback_credit).

(** ** Voucher builder *)

(** The amounts of a normalised row are numbers: [fillna(0.0)] has removed
    every NaN. *)
Definition normalised (row : TransactionRow.t) : Prop :=
  SFis_nan (get_default (TransactionRow.debit row) float_zero) = false
  /\ SFis_nan (get_default (TransactionRow.credit row) float_zero) = false.

(** [0 < x] on binary64. *)
Definition float_pos (x : spec_float) : bool := SFltb float_zero x.

Section BuilderVocabulary.
Context {lib : PyLib}.
Variables (mapping_rules : list Rule.t) (fallback_debit fallback_credit : string).

(** The voucher of a row that is not skipped, numbered [k]. *)
Definition voucher_for (k : Z) (row : TransactionRow.t) : Voucher :=
  let '(debit_account, credit_account) :=
    map_entry_to_accounts (TransactionRow.summary row) mapping_rules fallback_debit fallback_credit in
  mkVoucher (format_03d k) (TransactionRow.date row)
            (str_or (str_strip (TransactionRow.summary row)) "银行流水")
            debit_account credit_account (SFabs (select_amount row)).

(** The vouchers of [rows] when the next free number is [k]. *)
Fixpoint vouchers_from (k : Z) (rows : list TransactionRow.t) : list Voucher :=
  match rows with
  | [] => []
  | row :: rest =>
      if float_eq0 (select_amount row) then vouchers_from k rest
      else voucher_for k row :: vouchers_from (k + 1) rest
  end.

End BuilderVocabulary.

(** ** Statement normaliser *)

Section NormaliserVocabulary.
Context {lib : PyLib}.

(** The header after [strip], the columns bound to the four fields, and
    the rows after selection. *)
Definition header (df : DataFrame) : list string := map str_strip (columns df).
Definition date_col (df : DataFrame) := find_column (header df) aliases_date.
Definition summary_col (df : DataFrame) := find_column (header df) aliases_summary.
Definition debit_col (df : DataFrame) := find_column (header df) aliases_debit.
Definition credit_col (df : DataFrame) := find_column (header df) aliases_credit.

Definition resolved (df : DataFrame) : bool :=
  negb (columns_missing (date_col df) (summary_col df) (debit_col df) (credit_col df)).

Definition selected (df : DataFrame) : list Selected.t :=
  map (select_row (header df) (date_col df) (summary_col df) (debit_col df) (credit_col df))
      (data df).

(** A date cell [parse_date] cannot read: it is empty, or it is no
    datetime, none of the four patterns reads it and pandas gives up. *)
Definition date_unreadable (c : cell) : Prop :=
  isna c = true
  \/ ((forall d, c <> Dt d)
      /\ try_formats (str_strip (py_str c)) date_formats = None
      /\ pd_to_datetime c = None).

End NormaliserVocabulary.

(** ** Layout *)

Local Open Scope Q_scope.

(** The layout a sequence of calls describes: every voucher drawn, with the
    index of its page (the number of page breaks before it, from [page])
    and its box [(x, y, width, height)]. *)
Fixpoint placements (page : Z) (calls : list render_call)
    : list (Voucher * Z * (Q * Q * Q * Q)) :=
  match calls with
  | [] => []
  | call_draw_voucher v x y width height :: rest =>
      (v, page, (x, y, width, height)) :: placements page rest
  | call_showPage :: rest => placements (page + 1) rest
  | call_save :: rest => placements page rest
  end.

(** Where the page breaks fall: for each break, how many vouchers have been
    drawn before it (counting from [drawn]). *)
Fixpoint page_breaks (drawn : Z) (calls : list render_call) : list Z :=
  match calls with
  | [] => []
  | call_draw_voucher _ _ _ _ _ :: rest => page_breaks (drawn + 1) rest
  | call_showPage :: rest => drawn :: page_breaks drawn rest
  | call_save :: rest => page_breaks drawn rest
  end.

(** The condition of the page break after the [k]-th voucher ([k] counted
    from 1) of [total]. *)
Definition breaks_after (vouchers_per_page total k : Z) : bool :=
  ((k mod vouchers_per_page =? 0) && negb (k =? total))%Z.

(** The horizontal rules of a drawing (the lines whose two ends are at one
    height), by their height, and the other lines, by the abscissa of their
    first end. *)
Definition row_rule (op : canvas_op) : list Q :=
  match op with
  | line _ y1 _ y2 => if Qeq_bool y1 y2 then [y1] else []
  | _ => []
  end.

Definition column_rule (op : canvas_op) : list Q :=
  match op with
  | line x1 y1 _ y2 => if Qeq_bool y1 y2 then [] else [x1]
  | _ => []
  end.

Definition frame_of (op : canvas_op) : list (Q * Q * Q * Q) :=
  match op with
  | rect x y width height => [(x, y, width, height)]
  | _ => []
  end.

Definition row_separators (ops : list canvas_op) : list Q := flat_map row_rule ops.
Definition column_separators (ops : list canvas_op) : list Q := flat_map column_rule ops.
Definition table_frames (ops : list canvas_op) : list (Q * Q * Q * Q) :=
  flat_map frame_of ops.

(** The distances between consecutive heights, from the top down. *)
Fixpoint gaps (edges : list Q) : list Q :=
  match edges with
  | upper :: ((lower :: _) as rest) => (upper - lower) :: gaps rest
  | _ => []
  end.

(** The heights of the rows of the table of a drawing, from the top: the
    rows are what the row separators cut out of the frame. *)
Definition row_heights (ops : list canvas_op) : list Q :=
  match table_frames ops with
  | (_, bottom, _, height) :: _ => gaps ((bottom + height) :: row_separators ops ++ [bottom])
  | [] => []
  end.

Local Open Scope Z_scope.

(** ** Fonts, files and documents *)

Section FontVocabulary.
Variables (path_exists : string -> bool) (register_font : string -> string -> option string).

(** A font file that is there and registers. *)
Definition font_usable (path : string) : Prop :=
  path_exists path = true /\ register_font CH_FONT path = None.

(** The failure messages of the font files that are there and do not
    register. *)
Definition font_failures (paths : list string) : list event :=
  flat_map (fun path =>
              if path_exists path then
                match register_font CH_FONT path with
                | Some exc => [Printed ("注册中文字体失败 " ++ path ++ ": " ++ exc)%string]
                | None => []
                end
              else [])
           paths.

End FontVocabulary.

(** The distances between consecutive abscissas, from the left. *)
Fixpoint steps (edges : list Q) : list Q :=
  match edges with
  | lower :: ((upper :: _) as rest) => (upper - lower)%Q :: steps rest
  | _ => []
  end.

(** The widths of the columns of the table of a drawing, from the left: the
    columns are what the column separators cut out of the frame. *)
Definition column_widths (ops : list canvas_op) : list Q :=
  match table_frames ops with
  | (x, _, width, _) :: _ => steps (x :: column_separators ops ++ [(x + width)%Q])
  | [] => []
  end.

Definition is_font_change (op : canvas_op) : bool :=
  match op with
  | setFont _ _ => true
  | _ => false
  end.

(** The operations of a drawing after its last change of font. *)
Fixpoint after_last_font (ops : list canvas_op) : list canvas_op :=
  match ops with
  | [] => []
  | op :: rest =>
      if existsb is_font_change rest then after_last_font rest
      else if is_font_change op then rest
      else []
  end.

(** The baselines of the texts of a list of operations. *)
Definition baselines (ops : list canvas_op) : list Q :=
  flat_map (fun op =>
              match op with
              | drawString _ y _ | drawCentredString _ y _ | drawRightString _ y _ => [y]
              | _ => []
              end)
           ops.

(** The paths of the documents among the events of a run. *)
Definition saved_paths (events : list event) : list string :=
  flat_map (fun e => match e with PdfSaved path _ => [path] | _ => [] end) events.

(* ================================================================== *)
(** * Properties of the account classifier *)

Local Open Scope Z_scope.

Lemma prefix_iff (k s : string) :
  prefix k s = true <-> exists post, s = (k ++ post)%string.
Proof.
  revert s; induction k as [|a k IH]; intros s.
  - destruct s; simpl; split; intros; try reflexivity; eexists; reflexivity.
  - destruct s as [|b s]; simpl.
    + split; [discriminate | intros [post H]; discriminate].
    + destruct (ascii_dec a b) as [->|Hab].
      * rewrite IH. split; intros [post H]; exists post.
        -- now rewrite H.
        -- now injection H.
      * split; [discriminate | intros [post H]; injection H; intros; congruence].
Qed.

Lemma str_in_cons (k : string) (a : ascii) (s : string) :
  str_in k (String a s) = prefix k (String a s) || str_in k s.
Proof.
  change (str_in k (String a s))
    with (if prefix k (String a s) then true else str_in k s).
  now destruct (prefix k (String a s)).
Qed.

Lemma str_in_iff (k s : string) : str_in k s = true <-> Substring k s.
Proof.
  induction s as [|a s IH].
  - change (str_in k "") with (if prefix k "" then true else false).
    split.
    + destruct (prefix k "") eqn:E; [|discriminate]. intros _.
      apply prefix_iff in E as [post E]. exists EmptyString, post. exact E.
    + intros [pre [post H]].
      destruct pre; [|discriminate]. simpl in H.
      assert (E : prefix k "" = true) by (apply prefix_iff; eauto).
      now rewrite E.
  - rewrite str_in_cons, orb_true_iff, IH, prefix_iff. split.
    + intros [[post H] | [pre [post H]]].
      * exists EmptyString, post. exact H.
      * exists (String a pre), post. simpl. now rewrite H.
    + intros [pre [post H]]. destruct pre as [|b pre]; simpl in H.
      * left. eauto.
      * right. injection H as _ H. exists pre, post. exact H.
Qed.

Lemma substring_empty (s : string) : Substring EmptyString s.
Proof. exists EmptyString, s. reflexivity. Qed.

Lemma str_truthy_iff (s : string) : str_truthy s = true <-> s <> EmptyString.
Proof. destruct s; simpl; split; congruence. Qed.

Lemma rule_matches_iff (rule : Rule.t) (summary : string) :
  rule_matches rule summary = true <-> Matches rule summary.
Proof.
  unfold rule_matches, Matches. destruct (rule_get_keyword rule) as [|kw].
  - split; [discriminate | intros [k [H _]]; discriminate].
  - rewrite andb_true_iff, str_truthy_iff, str_in_iff. split.
    + intros [H1 H2]. exists kw. auto.
    + intros [k [H [H1 H2]]]. injection H as <-. auto.
Qed.

Lemma rule_matches_false_iff (rule : Rule.t) (summary : string) :
  rule_matches rule summary = false <-> ~ Matches rule summary.
Proof.
  rewrite <- rule_matches_iff. destruct (rule_matches rule summary); split; congruence.
Qed.

(** A rule that does not match is passed over. *)
Lemma map_entry_skip (summary : string) (pre : list Rule.t) (rule : Rule.t)
    (post : list Rule.t) (fd fc : string) :
  rule_matches rule summary = false ->
  map_entry_to_accounts summary (pre ++ rule :: post) fd fc
  = map_entry_to_accounts summary (pre ++ post) fd fc.
Proof.
  intros H. induction pre as [|r pre IH]; simpl.
  - now rewrite H.
  - now rewrite IH.
Qed.

(** C3, as the code has it. The classifier returns the accounts of the
    first rule, in list order, whose keyword is a NON-EMPTY string occurring
    in the description (byte for byte, so case-sensitively), each side the
    rule omits being the fallback; and when no rule is such a match (in
    particular for the empty rule list) it returns the two fallbacks. *)
Theorem map_entry_first_nonempty_match (summary : string) (rules : list Rule.t)
    (fd fc : string) :
  ((exists pre rule post,
      rules = pre ++ rule :: post
      /\ Forall (fun r => ~ Matches r summary) pre
      /\ Matches rule summary
      /\ map_entry_to_accounts summary rules fd fc = rule_accounts rule fd fc)
   \/ (Forall (fun r => ~ Matches r summary) rules
       /\ map_entry_to_accounts summary rules fd fc = (fd, fc)))
  /\ map_entry_to_accounts summary [] fd fc = (fd, fc).
Proof.
  split; [|reflexivity].
  induction rules as [|r rules IH].
  - right. split; [constructor | reflexivity].
  - simpl. destruct (rule_matches r summary) eqn:E.
    + left. exists [], r, rules. repeat split.
      * constructor.
      * now apply rule_matches_iff.
    + apply rule_matches_false_iff in E.
      destruct IH as [(pre & rule & post & Hr & Hpre & Hm & Hres) | [Hall Hres]].
      * left. exists (r :: pre), rule, post. repeat split.
        -- now rewrite Hr.
        -- now constructor.
        -- exact Hm.
        -- exact Hres.
      * right. split; [now constructor | exact Hres].
Qed.

(** C3 as stated fails: a first rule whose keyword is the empty string has
    a keyword that occurs in the description, and it is not the rule whose
    accounts are returned. *)
Lemma map_entry_empty_keyword_not_chosen :
  Substring "" "abc"
  /\ rule_get_keyword (Rule.mk (Some (PyStr "")) (Some "A") (Some "B")) = PyStr ""
  /\ map_entry_to_accounts "abc" [Rule.mk (Some (PyStr "")) (Some "A") (Some "B")] "X" "Y"
     = ("X", "Y")
  /\ map_entry_to_accounts "abc" [Rule.mk (Some (PyStr "")) (Some "A") (Some "B")] "X" "Y"
     <> rule_accounts (Rule.mk (Some (PyStr "")) (Some "A") (Some "B")) "X" "Y".
Proof.
  split; [apply substring_empty|]. split; [reflexivity|]. split; [reflexivity|].
  discriminate.
Qed.

(** The scenario of the specification: the rule for salaries. *)
Example map_entry_salary :
  map_entry_to_accounts "发放3月工资"
    [Rule.mk (Some (PyStr "工资")) (Some "管理费用-工资") (Some "银行存款")] "D" "C"
  = ("管理费用-工资", "银行存款").
Proof. reflexivity. Qed.

(** C9. A rule whose [keyword] is absent, [None] or the empty string matches
    no description, although the empty string occurs in every string; in
    any rule list it can be removed without changing the result. *)
Theorem map_entry_keywordless_rule_ignored (rule : Rule.t) :
  Rule.keyword rule = None \/ Rule.keyword rule = Some PyNone
  \/ Rule.keyword rule = Some (PyStr "") ->
  forall summary : string,
    Substring "" summary
    /\ rule_matches rule summary = false
    /\ forall (pre post : list Rule.t) (fd fc : string),
         map_entry_to_accounts summary (pre ++ rule :: post) fd fc
         = map_entry_to_accounts summary (pre ++ post) fd fc.
Proof.
  intros H summary.
  assert (E : rule_matches rule summary = false).
  { unfold rule_matches, rule_get_keyword.
    destruct H as [-> | [-> | ->]]; reflexivity. }
  split; [apply substring_empty|]. split; [exact E|].
  intros pre post fd fc. now apply map_entry_skip.
Qed.

(** A rule with an empty keyword between two other rules. *)
Lemma map_entry_keywordless_rule_ignored_witness :
  map_entry_to_accounts "abc"
    ([Rule.mk (Some (PyStr "zz")) None None]
     ++ Rule.mk (Some (PyStr "")) (Some "A") (Some "B")
     :: [Rule.mk (Some (PyStr "b")) (Some "P") None]) "X" "Y"
  = map_entry_to_accounts "abc"
    ([Rule.mk (Some (PyStr "zz")) None None]
     ++ [Rule.mk (Some (PyStr "b")) (Some "P") None]) "X" "Y".
Proof.
  apply (map_entry_keywordless_rule_ignored
           (Rule.mk (Some (PyStr "")) (Some "A") (Some "B"))).
  right; right; reflexivity.
Defined.

(* ================================================================== *)
(** * Properties of the voucher numbers *)

Lemma uint_of_string_zeros (k : nat) (s : string) :
  NilEmpty.uint_of_string (zeros k ++ s)
  = option_map (Nat.iter k Decimal.D0) (NilEmpty.uint_of_string s).
Proof.
  induction k as [|k IH]; simpl.
  - now destruct (NilEmpty.uint_of_string s).
  - rewrite IH. now destruct (NilEmpty.uint_of_string s).
Qed.

Lemma of_uint_zeros (k : nat) (d : Decimal.uint) :
  Z.of_uint (Nat.iter k Decimal.D0 d) = Z.of_uint d.
Proof. induction k as [|k IH]; [reflexivity | exact IH]. Qed.

Lemma string_of_uint_nonempty (d : Decimal.uint) :
  d <> Decimal.Nil -> NilEmpty.string_of_uint d <> EmptyString.
Proof. destruct d; simpl; congruence. Qed.

Lemma to_uint_nonnil (m : N) : N.to_uint m <> Decimal.Nil.
Proof.
  destruct m; simpl; [discriminate | apply DecimalPos.Unsigned.to_uint_nonnil].
Qed.

(** The digits of a natural number, zero-filled, read back as that number. *)
Lemma digits_value_padded (k : nat) (m : N) :
  digits_value (zeros k ++ NilZero.string_of_uint (N.to_uint m)) = Some (Z.of_N m).
Proof.
  assert (Hd := to_uint_nonnil m).
  assert (E : NilZero.string_of_uint (N.to_uint m)
              = NilEmpty.string_of_uint (N.to_uint m)).
  { unfold NilZero.string_of_uint. destruct (N.to_uint m); congruence. }
  rewrite E.
  assert (Hne : (zeros k ++ NilEmpty.string_of_uint (N.to_uint m))%string <> EmptyString).
  { destruct k; simpl; [now apply string_of_uint_nonempty | discriminate]. }
  unfold digits_value.
  destruct (zeros k ++ NilEmpty.string_of_uint (N.to_uint m))%string eqn:Es;
    [congruence|].
  rewrite <- Es, uint_of_string_zeros, NilEmpty.usu. simpl.
  rewrite of_uint_zeros. unfold Z.of_uint.
  change (Pos.of_uint (N.to_uint m)) with (N.of_uint (N.to_uint m)).
  now rewrite DecimalN.Unsigned.of_to.
Qed.

Lemma digits_value_not_minus (rest : string) : digits_value (String "-" rest) = None.
Proof.
  unfold digits_value. simpl. now destruct (NilEmpty.uint_of_string rest).
Qed.

Lemma number_value_digits (s : string) (z : Z) :
  digits_value s = Some z -> number_value s = Some z.
Proof.
  destruct s as [|a rest]; [discriminate|]. intros H. unfold number_value.
  destruct (Ascii.eqb_spec a "-") as [->|_]; [|exact H].
  now rewrite digits_value_not_minus in H.
Qed.

(** [format_03d] loses nothing: the number reads back. *)
Lemma number_value_format_03d (n : Z) : number_value (format_03d n) = Some n.
Proof.
  unfold format_03d. destruct (Z.ltb_spec n 0) as [Hn|Hn].
  - change (("-" ++ ?t)%string) with (String "-" t). unfold number_value.
    change (Ascii.eqb "-" "-") with true. cbv iota.
    rewrite digits_value_padded. simpl. f_equal.
    rewrite N2Z.inj_abs_N. lia.
  - apply number_value_digits. change (("" ++ ?t)%string) with t.
    rewrite digits_value_padded. f_equal. rewrite N2Z.inj_abs_N. lia.
Qed.

Lemma format_03d_injective (n m : Z) : format_03d n = format_03d m -> n = m.
Proof.
  intros H. apply (f_equal number_value) in H.
  rewrite !number_value_format_03d in H. congruence.
Qed.

Example format_03d_samples :
  (format_03d 1, format_03d 42, format_03d 999, format_03d 1000, format_03d (-5))
  = ("001", "042", "999", "1000", "-05")%string.
Proof. reflexivity. Qed.

(* ================================================================== *)
(** * Properties of the voucher builder *)

Lemma float_ne0_negb (x : spec_float) : float_ne0 x = negb (float_eq0 x).
Proof. reflexivity. Qed.

Lemma abs_pos (x : spec_float) :
  SFis_nan x = false -> float_eq0 x = false -> float_pos (SFabs x) = true.
Proof.
  unfold float_pos, float_eq0, SFltb, SFeqb.
  destruct x as [s|s| |s m e]; try destruct s; simpl; congruence.
Qed.

Lemma select_amount_eq0 (row : TransactionRow.t) :
  float_eq0 (select_amount row) = negb (nonzero_row row).
Proof.
  unfold select_amount, nonzero_row. rewrite !float_ne0_negb.
  destruct (float_eq0 (get_default (TransactionRow.debit row) float_zero)) eqn:E; simpl.
  - now rewrite negb_involutive.
  - exact E.
Qed.

Lemma select_amount_not_nan (row : TransactionRow.t) :
  normalised row -> SFis_nan (select_amount row) = false.
Proof.
  intros [Hd Hc]. unfold select_amount.
  now destruct (float_eq0 (get_default (TransactionRow.debit row) float_zero)).
Qed.

Section BuilderProperties.
Context {lib : PyLib}.
Variables (mapping_rules : list Rule.t) (start_number : Z)
          (fallback_debit fallback_credit : string).

Local Abbreviation voucher_for := (voucher_for mapping_rules fallback_debit fallback_credit).
Local Abbreviation vouchers_from :=
  (vouchers_from mapping_rules fallback_debit fallback_credit).

Let step := build_vouchers_step mapping_rules start_number fallback_debit fallback_credit.
Let build (rows : list TransactionRow.t) :=
  build_vouchers rows mapping_rules start_number fallback_debit fallback_credit.

Lemma build_vouchers_step_eq (vouchers : list Voucher) (row : TransactionRow.t) :
  step vouchers row
  = if float_eq0 (select_amount row) then vouchers
    else vouchers ++ [voucher_for (start_number + Z.of_nat (List.length vouchers)) row].
Proof.
  unfold step, build_vouchers_step, voucher_for.
  destruct (float_eq0 (select_amount row)); [reflexivity|].
  now destruct (map_entry_to_accounts _ _ _ _).
Qed.

Lemma fold_build_vouchers (rows : list TransactionRow.t) (vouchers : list Voucher) :
  fold_left step rows vouchers
  = vouchers ++ vouchers_from (start_number + Z.of_nat (List.length vouchers)) rows.
Proof.
  revert vouchers; induction rows as [|row rows IH]; intros vouchers; simpl.
  - now rewrite app_nil_r.
  - rewrite build_vouchers_step_eq.
    destruct (float_eq0 (select_amount row)); [apply IH|].
    rewrite IH, <- app_assoc, length_app. simpl.
    do 3 f_equal. lia.
Qed.

Lemma build_vouchers_eq (rows : list TransactionRow.t) :
  build rows = vouchers_from start_number rows.
Proof.
  unfold build, build_vouchers. fold step. rewrite fold_build_vouchers. simpl.
  f_equal. lia.
Qed.

Lemma vouchers_from_filter (k : Z) (rows : list TransactionRow.t) :
  vouchers_from k (filter nonzero_row rows) = vouchers_from k rows.
Proof.
  revert k; induction rows as [|row rows IH]; intros k; simpl; [reflexivity|].
  assert (E := select_amount_eq0 row).
  destruct (nonzero_row row); simpl in *; rewrite E; [now rewrite IH | apply IH].
Qed.

Lemma vouchers_from_length (k : Z) (rows : list TransactionRow.t) :
  List.length (vouchers_from k rows) = List.length (filter nonzero_row rows).
Proof.
  revert k; induction rows as [|row rows IH]; intros k; simpl; [reflexivity|].
  assert (E := select_amount_eq0 row).
  destruct (nonzero_row row); simpl in *; rewrite E; simpl; now rewrite IH.
Qed.

Lemma vouchers_from_numbers (k : Z) (rows : list TransactionRow.t) :
  map number (vouchers_from k rows)
  = map (fun i => format_03d (k + Z.of_nat i))
        (seq 0 (List.length (vouchers_from k rows))).
Proof.
  revert k; induction rows as [|row rows IH]; intros k; simpl; [reflexivity|].
  destruct (float_eq0 (select_amount row)); [apply IH|].
  simpl. rewrite Z.add_0_r. f_equal.
  - unfold voucher_for. now destruct (map_entry_to_accounts _ _ _ _).
  - rewrite IH, <- seq_shift, map_map. apply map_ext. intros i. f_equal. lia.
Qed.

Lemma vouchers_from_amounts (k : Z) (rows : list TransactionRow.t) :
  map amount (vouchers_from k rows)
  = map (fun row => SFabs (select_amount row))
        (filter (fun row => float_ne0 (select_amount row)) rows).
Proof.
  revert k; induction rows as [|row rows IH]; intros k; simpl; [reflexivity|].
  rewrite float_ne0_negb.
  destruct (float_eq0 (select_amount row)); simpl; [apply IH|].
  f_equal; [|apply IH].
  unfold voucher_for. now destruct (map_entry_to_accounts _ _ _ _).
Qed.

(** C1. The numbers of the vouchers are the formatted integers
    [start_number], [start_number + 1], ... in order, one per voucher
    (and read back as those integers); there are as many vouchers as rows
    with a non-zero amount, so at most as many as rows; and the rows with
    both amounts zero can be removed from the input without changing any
    voucher or number. *)
Theorem build_vouchers_consecutive_numbers (rows : list TransactionRow.t) :
  map number (build rows)
  = map (fun i => format_03d (start_number + Z.of_nat i))
        (seq 0 (List.length (build rows)))
  /\ map (fun v => number_value (number v)) (build rows)
     = map (fun i => Some (start_number + Z.of_nat i))
           (seq 0 (List.length (build rows)))
  /\ List.length (build rows) = List.length (filter nonzero_row rows)
  /\ (List.length (build rows) <= List.length rows)%nat
  /\ build (filter nonzero_row rows) = build rows.
Proof.
  rewrite !build_vouchers_eq.
  assert (Hn := vouchers_from_numbers start_number rows).
  split; [exact Hn|]. split.
  - rewrite <- (map_map number number_value), Hn, map_map.
    apply map_ext. intros i. apply number_value_format_03d.
  - split; [apply vouchers_from_length|]. split.
    + rewrite vouchers_from_length. apply filter_length_le.
    + apply vouchers_from_filter.
Qed.

(** C2. The amount kept for a row is its debit when that is not zero and
    its credit otherwise; a row is skipped exactly when both are zero; the
    amounts of the vouchers are, in order, the absolute values of the
    amounts kept for the rows that are not skipped; and on normalised
    rows every one of them is strictly positive. *)
Theorem build_vouchers_amounts (rows : list TransactionRow.t) :
  Forall normalised rows ->
  (forall row : TransactionRow.t,
      select_amount row
      = (if float_ne0 (get_default (TransactionRow.debit row) float_zero)
         then get_default (TransactionRow.debit row) float_zero
         else get_default (TransactionRow.credit row) float_zero)
      /\ build [row]
         = (if float_eq0 (get_default (TransactionRow.debit row) float_zero)
               && float_eq0 (get_default (TransactionRow.credit row) float_zero)
            then []
            else [voucher_for start_number row]))
  /\ map amount (build rows)
     = map (fun row => SFabs (select_amount row))
           (filter (fun row => float_ne0 (select_amount row)) rows)
  /\ Forall (fun v => float_pos (amount v) = true) (build rows).
Proof.
  intros Hnorm. split; [|split].
  - intros row. rewrite build_vouchers_eq. simpl.
    unfold select_amount. rewrite float_ne0_negb.
    destruct (float_eq0 (get_default (TransactionRow.debit row) float_zero)) eqn:Ed; simpl.
    + split; [reflexivity|].
      now destruct (float_eq0 (get_default (TransactionRow.credit row) float_zero)).
    + split; [reflexivity|]. now rewrite Ed.
  - rewrite build_vouchers_eq. apply vouchers_from_amounts.
  - rewrite build_vouchers_eq.
    apply Forall_forall. intros v Hv.
    apply (in_map amount) in Hv. rewrite vouchers_from_amounts in Hv.
    apply in_map_iff in Hv as [row [<- Hrow]].
    apply filter_In in Hrow as [Hin Hne].
    apply abs_pos.
    + apply select_amount_not_nan. rewrite Forall_forall in Hnorm. now apply Hnorm.
    + rewrite float_ne0_negb in Hne. now destruct (float_eq0 (select_amount row)).
Qed.

End BuilderProperties.

(* ================================================================== *)
(** * Properties of the statement normaliser *)

Lemma in_columns_iff (df_columns : list string) (name : string) :
  in_columns df_columns name = true <-> In name df_columns.
Proof.
  unfold in_columns. rewrite existsb_exists. split.
  - intros [c [Hc E]]. apply String.eqb_eq in E. now subst.
  - intros H. exists name. split; [exact H | apply String.eqb_refl].
Qed.

Lemma find_column_None (df_columns names : list string) :
  find_column df_columns names = None
  <-> Forall (fun b => ~ In b df_columns) names.
Proof.
  induction names as [|n names IH]; simpl.
  - split; [constructor | reflexivity].
  - destruct (in_columns df_columns n) eqn:E.
    + split; [discriminate|]. intros H. inversion H as [|? ? Hn _]; subst.
      apply in_columns_iff in E. contradiction.
    + rewrite IH. split.
      * intros H. constructor; [|exact H].
        rewrite <- in_columns_iff. congruence.
      * intros H. now inversion H.
Qed.

(** The alias bound to a field is the first one, in the declared order,
    that is a column of the frame. *)
Lemma find_column_Some (df_columns names : list string) (a : string) :
  find_column df_columns names = Some a
  <-> exists pre post,
        names = pre ++ a :: post
        /\ In a df_columns
        /\ Forall (fun b => ~ In b df_columns) pre.
Proof.
  induction names as [|n names IH]; simpl.
  - split; [discriminate|]. intros (pre & post & H & _). now destruct pre.
  - destruct (in_columns df_columns n) eqn:E.
    + apply in_columns_iff in E. split.
      * intros H. injection H as <-. exists [], names. repeat split; auto.
      * intros (pre & post & H & Ha & Hpre). destruct pre as [|p pre].
        -- injection H as <- _. reflexivity.
        -- injection H as <- _. inversion Hpre; subst. contradiction.
    + rewrite IH. split.
      * intros (pre & post & H & Ha & Hpre). exists (n :: pre), post.
        repeat split; [now rewrite H | exact Ha |].
        constructor; [|exact Hpre]. rewrite <- in_columns_iff. congruence.
      * intros (pre & post & H & Ha & Hpre). destruct pre as [|p pre].
        -- injection H as <- _. apply in_columns_iff in Ha. congruence.
        -- injection H as <- H. inversion Hpre; subst. exists pre, post. auto.
Qed.

Lemma find_column_truthy (df_columns names : list string) :
  Forall (fun a => str_truthy a = true) names ->
  opt_truthy (find_column df_columns names)
  = match find_column df_columns names with Some _ => true | None => false end.
Proof.
  induction 1 as [|n names Hn _ IH]; simpl; [reflexivity|].
  destruct (in_columns df_columns n); [exact Hn | exact IH].
Qed.

Lemma aliases_truthy :
  Forall (fun a => str_truthy a = true)
         (aliases_date ++ aliases_summary ++ aliases_debit ++ aliases_credit).
Proof. repeat constructor. Qed.

Lemma columns_missing_iff (df_columns : list string) :
  columns_missing (find_column df_columns aliases_date)
                  (find_column df_columns aliases_summary)
                  (find_column df_columns aliases_debit)
                  (find_column df_columns aliases_credit) = true
  <-> find_column df_columns aliases_date = None
      \/ find_column df_columns aliases_summary = None
      \/ (find_column df_columns aliases_debit = None
          /\ find_column df_columns aliases_credit = None).
Proof.
  unfold columns_missing.
  assert (H := aliases_truthy).
  apply Forall_app in H as [Hd H]. apply Forall_app in H as [Hs H].
  apply Forall_app in H as [Hb Hc].
  rewrite !find_column_truthy by assumption.
  destruct (find_column df_columns aliases_date),
           (find_column df_columns aliases_summary),
           (find_column df_columns aliases_debit),
           (find_column df_columns aliases_credit); simpl;
    split; intros; try discriminate; auto;
    repeat match goal with
           | H : _ \/ _ |- _ => destruct H
           | H : _ /\ _ |- _ => destruct H
           end; discriminate.
Qed.

Lemma messages_differ : missing_columns_message <> empty_date_message.
Proof. discriminate. Qed.

Lemma apply_each_raise {A B : Type} (f : A -> result B) (xs : list A) (e : exn) :
  apply_each f xs = Raise e -> exists x, In x xs /\ f x = Raise e.
Proof.
  induction xs as [|x xs IH]; simpl; [discriminate|].
  destruct (f x) as [y|e'] eqn:E; simpl.
  - destruct (apply_each f xs) as [ys|e'']; simpl; [discriminate|].
    intros H. destruct (IH H) as [x' [Hin Hx']].
    exists x'. split; [now right | exact Hx'].
  - intros H. injection H as <-. exists x. split; [now left | exact E].
Qed.

Lemma apply_each_exists_raise {A B : Type} (f : A -> result B) (xs : list A) :
  Exists (fun x => exists e, f x = Raise e) xs -> exists e, apply_each f xs = Raise e.
Proof.
  induction 1 as [x xs [e He] | x xs _ [e IH]]; simpl.
  - rewrite He. simpl. eauto.
  - destruct (f x); simpl; [rewrite IH; simpl|]; eauto.
Qed.

Lemma apply_each_all_ok {A B : Type} (f : A -> result B) (xs : list A) :
  Forall (fun x => exists y, f x = Ok y) xs ->
  exists ys, apply_each f xs = Ok ys /\ Forall2 (fun x y => f x = Ok y) xs ys.
Proof.
  induction 1 as [|x xs [y Hy] _ [ys [IH1 IH2]]]; simpl.
  - exists []. split; [reflexivity | constructor].
  - rewrite Hy, IH1. simpl. exists (y :: ys). split; [reflexivity | now constructor].
Qed.

Lemma Forall2_map_left {A B C : Type} (f : A -> B) (R : B -> C -> Prop)
    (xs : list A) (ys : list C) :
  Forall2 R (map f xs) ys -> Forall2 (fun x y => R (f x) y) xs ys.
Proof.
  revert ys; induction xs as [|x xs IH]; intros ys H; inversion H; subst;
    constructor; auto.
Qed.

Section NormaliserProperties.
Context {lib : PyLib}.

Lemma parse_csv_eq (df : DataFrame) (filter_zero : bool) :
  parse_csv df filter_zero
  = if resolved df then
      dates <- apply_each parse_date (map Selected.date (selected df)) ;;
      Ok (if filter_zero
          then filter nonzero_row (map normalise_row (combine dates (selected df)))
          else map normalise_row (combine dates (selected df)))
    else Raise (ValueError missing_columns_message).
Proof.
  unfold parse_csv, resolved, selected, date_col, summary_col, debit_col, credit_col, header.
  now destruct (columns_missing _ _ _ _).
Qed.

Lemma parse_date_empty (c : cell) :
  isna c = true -> parse_date c = Raise (ValueError empty_date_message).
Proof. intros H. unfold parse_date. now rewrite H. Qed.

Lemma parse_date_raises (c : cell) (e : exn) :
  parse_date c = Raise e ->
  date_unreadable c /\ (e = ValueError empty_date_message \/ e = DateParseError).
Proof.
  unfold parse_date, date_unreadable. destruct (isna c) eqn:En.
  - intros H. injection H as <-. auto.
  - assert (Hlast :
      match try_formats (str_strip (py_str c)) date_formats with
      | Some d => Ok d
      | None => match pd_to_datetime c with
                | Some d => Ok d
                | None => Raise DateParseError
                end
      end = Raise e ->
      try_formats (str_strip (py_str c)) date_formats = None
      /\ pd_to_datetime c = None /\ e = DateParseError).
    { destruct (try_formats _ date_formats); [discriminate|].
      destruct (pd_to_datetime c); [discriminate|].
      intros H. injection H as <-. auto. }
    destruct c as [| s | x | d]; try discriminate; intros H;
      apply Hlast in H as (Hf & Hp & ->);
      (split; [right; repeat split; [discriminate | exact Hf | exact Hp] | auto]).
Qed.

Lemma parse_date_unreadable (c : cell) :
  date_unreadable c -> exists e, parse_date c = Raise e.
Proof.
  intros [H | (Hdt & Hf & Hp)].
  - rewrite parse_date_empty by exact H. eauto.
  - unfold parse_date. destruct (isna c); [eauto|].
    destruct c as [| s | x | d]; try (rewrite Hf, Hp; eauto).
    now destruct (Hdt d).
Qed.

Lemma parse_date_readable (c : cell) :
  ~ date_unreadable c -> exists d, parse_date c = Ok d.
Proof.
  intros H. destruct (parse_date c) as [d|e] eqn:E; [eauto|].
  apply parse_date_raises in E as [E _]. contradiction.
Qed.

Lemma coerce_amount_not_nan (c : cell) : SFis_nan (coerce_amount c) = false.
Proof.
  unfold coerce_amount. destruct (SFis_nan (pd_to_numeric c)) eqn:E; [reflexivity | exact E].
Qed.

Lemma normalise_row_normalised (entry : datetime * Selected.t) :
  normalised (normalise_row entry).
Proof.
  destruct entry as [d sel]. unfold normalised, normalise_row. simpl.
  destruct (Selected.debit sel), (Selected.credit sel); simpl;
    rewrite ?coerce_amount_not_nan; auto.
Qed.

(** Every row [parse_csv] returns is normalised. *)
Lemma parse_csv_normalised (df : DataFrame) (filter_zero : bool) (rows : list TransactionRow.t) :
  parse_csv df filter_zero = Ok rows -> Forall normalised rows.
Proof.
  rewrite parse_csv_eq. destruct (resolved df); [|discriminate].
  destruct (apply_each parse_date _) as [dates|e]; simpl; [|discriminate].
  intros H. injection H as <-.
  assert (Hall : Forall normalised (map normalise_row (combine dates (selected df)))).
  { apply Forall_forall. intros row Hrow. apply in_map_iff in Hrow as [entry [<- _]].
    apply normalise_row_normalised. }
  destruct filter_zero; [|exact Hall].
  apply Forall_forall. intros row Hrow. apply filter_In in Hrow as [Hrow _].
  rewrite Forall_forall in Hall. now apply Hall.
Qed.

End NormaliserProperties.

Section NormaliserTheorems.
Context {lib : PyLib}.

(** C4. Once the columns are resolved: if the date cell of some row is
    empty or cannot be read, [parse_csv] raises (the empty-date
    [ValueError] or the parse error of pandas) and returns no row at all,
    whatever the zero filter; if every date cell can be read, [parse_csv]
    returns, whatever the debit and credit cells hold: without the filter
    one row per input row, with the filter those of them that have a
    non-zero amount; an amount of a returned row is the number pandas
    reads in the cell, and 0.0 when pandas reads none. *)
Theorem parse_csv_date_fatal_amount_coerced (df : DataFrame) (filter_zero : bool) :
  resolved df = true ->
  (Exists (fun sel => date_unreadable (Selected.date sel)) (selected df) ->
   exists e, parse_csv df filter_zero = Raise e
             /\ (e = ValueError empty_date_message \/ e = DateParseError))
  /\ (Forall (fun sel => ~ date_unreadable (Selected.date sel)) (selected df) ->
      exists dates,
        Forall2 (fun sel d => parse_date (Selected.date sel) = Ok d) (selected df) dates
        /\ parse_csv df false = Ok (map normalise_row (combine dates (selected df)))
        /\ parse_csv df true
           = Ok (filter nonzero_row (map normalise_row (combine dates (selected df)))))
  /\ (forall c, isna c = true -> parse_date c = Raise (ValueError empty_date_message))
  /\ (forall d sel,
         TransactionRow.debit (normalise_row (d, sel)) = option_map coerce_amount (Selected.debit sel)
         /\ TransactionRow.credit (normalise_row (d, sel))
            = option_map coerce_amount (Selected.credit sel))
  /\ (forall c, coerce_amount c
                = if SFis_nan (pd_to_numeric c) then float_zero else pd_to_numeric c).
Proof.
  intros Hres. repeat split.
  - intros Hex. rewrite parse_csv_eq, Hres.
    assert (Hr : exists e, apply_each parse_date (map Selected.date (selected df)) = Raise e).
    { apply apply_each_exists_raise. apply Exists_exists in Hex as [sel [Hin Hun]].
      apply Exists_exists. exists (Selected.date sel).
      split; [now apply in_map | now apply parse_date_unreadable]. }
    destruct Hr as [e He]. rewrite He. simpl. exists e. split; [reflexivity|].
    apply apply_each_raise in He as [c [_ Hc]].
    now apply parse_date_raises in Hc.
  - intros Hall.
    destruct (apply_each_all_ok parse_date (map Selected.date (selected df)))
      as [dates [Hd H2]].
    { apply Forall_forall. intros c Hc. apply in_map_iff in Hc as [sel [<- Hin]].
      apply parse_date_readable. rewrite Forall_forall in Hall. now apply Hall. }
    exists dates. rewrite !parse_csv_eq, Hres, Hd. simpl. repeat split.
    exact (Forall2_map_left Selected.date (fun c d => parse_date c = Ok d) _ _ H2).
  - apply parse_date_empty.
Qed.

(** C7, as the code has it. A field is bound to the first of its aliases,
    in the declared order, that is a column of the stripped header, and to
    nothing when none is; [parse_csv] raises its missing-column error
    exactly when the date is unbound, or the description is unbound, or
    debit and credit are both unbound; and that error carries one fixed
    message, which lists all the required columns and does not depend on
    which of them is missing. *)
Theorem parse_csv_missing_columns (df : DataFrame) (filter_zero : bool) :
  (forall names a,
      find_column (header df) names = Some a
      <-> exists pre post,
            names = pre ++ a :: post
            /\ In a (header df)
            /\ Forall (fun b => ~ In b (header df)) pre)
  /\ (forall names,
         find_column (header df) names = None
         <-> Forall (fun b => ~ In b (header df)) names)
  /\ (parse_csv df filter_zero = Raise (ValueError missing_columns_message)
      <-> date_col df = None \/ summary_col df = None
          \/ (debit_col df = None /\ credit_col df = None)).
Proof.
  split; [intros; apply find_column_Some|].
  split; [intros; apply find_column_None|].
  unfold date_col, summary_col, debit_col, credit_col.
  rewrite <- columns_missing_iff, parse_csv_eq. unfold resolved.
  unfold date_col, summary_col, debit_col, credit_col.
  destruct (columns_missing _ _ _ _); simpl; split; try reflexivity; try discriminate.
  intros H. exfalso.
  destruct (apply_each parse_date (map Selected.date (selected df))) as [ds|e] eqn:E;
    simpl in H; [discriminate|].
  injection H as ->. apply apply_each_raise in E as [c [_ Hc]].
  apply parse_date_raises in Hc as [_ [Hc|Hc]]; [|discriminate].
  injection Hc as Hc. now apply messages_differ.
Qed.

(** C10. The vouchers (and the error, when there is one) are the same
    with the zero filter on and off. *)
Theorem load_vouchers_filter_irrelevant (df : DataFrame) (mapping_rules : list Rule.t)
    (start_number : Z) (fallback_debit fallback_credit : string) :
  load_vouchers df true mapping_rules start_number fallback_debit fallback_credit
  = load_vouchers df false mapping_rules start_number fallback_debit fallback_credit.
Proof.
  unfold load_vouchers. rewrite !parse_csv_eq.
  destruct (resolved df); [|reflexivity].
  destruct (apply_each parse_date _) as [dates|e]; simpl; [|reflexivity].
  f_equal. rewrite !build_vouchers_eq. apply vouchers_from_filter.
Qed.

End NormaliserTheorems.

(* ================================================================== *)
(** * Properties of the page layout *)

Local Open Scope Q_scope.

Lemma placements_app (page : Z) (calls : list render_call) :
  placements page (calls ++ [call_save]) = placements page calls.
Proof.
  revert page; induction calls as [|c calls IH]; intros page; [reflexivity|].
  destruct c; simpl; now rewrite IH.
Qed.

Lemma page_breaks_app (drawn : Z) (calls : list render_call) :
  page_breaks drawn (calls ++ [call_save]) = page_breaks drawn calls.
Proof.
  revert drawn; induction calls as [|c calls IH]; intros drawn; [reflexivity|].
  destruct c; simpl; now rewrite IH.
Qed.

Lemma next_index_break (n idx : Z) :
  (0 < n)%Z -> ((idx + 1) mod n = 0)%Z -> ((idx + 1) / n = idx / n + 1)%Z.
Proof.
  intros Hn Hm.
  assert (H1 := Z.div_mod (idx + 1) n ltac:(lia)).
  assert (H2 := Z.div_mod idx n ltac:(lia)).
  assert (H3 := Z.mod_pos_bound idx n Hn).
  rewrite Hm in H1. nia.
Qed.

Lemma next_index_same_page (n idx : Z) :
  (0 < n)%Z -> ((idx + 1) mod n <> 0)%Z ->
  ((idx + 1) / n = idx / n /\ (idx + 1) mod n = idx mod n + 1)%Z.
Proof.
  intros Hn Hm.
  assert (H1 := Z.div_mod (idx + 1) n ltac:(lia)).
  assert (H2 := Z.div_mod idx n ltac:(lia)).
  assert (H3 := Z.mod_pos_bound idx n Hn).
  assert (H4 := Z.mod_pos_bound (idx + 1) n Hn).
  assert ((idx + 1) / n = idx / n)%Z by nia.
  split; [assumption | nia].
Qed.

Section LoopProperties.
Variables (vouchers_per_page total : Z) (x top width height spacing : Q).

Let loop := render_loop vouchers_per_page total x top width height spacing.

(** Every voucher is drawn once, in input order. *)
Lemma render_loop_vouchers (page idx : Z) (y : Q) (vouchers : list Voucher) :
  map (fun p => fst (fst p)) (placements page (loop idx y vouchers)) = vouchers.
Proof.
  revert page idx y; induction vouchers as [|v vs IH]; intros page idx y;
    [reflexivity|].
  simpl. f_equal.
  destruct (_ && _)%bool; simpl; apply IH.
Qed.

(** Every box has the same left edge, width and height. *)
Lemma render_loop_boxes (page idx : Z) (y : Q) (vouchers : list Voucher) :
  Forall (fun p => let '(bx, _, bw, bh) := snd p in
                   bx = x /\ bw = width /\ bh = height)
         (placements page (loop idx y vouchers)).
Proof.
  revert page idx y; induction vouchers as [|v vs IH]; intros page idx y;
    [constructor|].
  simpl. constructor; [simpl; auto|].
  destruct (_ && _)%bool; simpl; apply IH.
Qed.

(** A page break follows the [k]-th voucher exactly when [k] is a
    multiple of [vouchers_per_page] and is not [total]. *)
Lemma render_loop_breaks (idx : Z) (y : Q) (vouchers : list Voucher) :
  page_breaks idx (loop idx y vouchers)
  = filter (breaks_after vouchers_per_page total)
           (map (fun j => (idx + Z.of_nat j)%Z) (seq 1 (List.length vouchers))).
Proof.
  revert idx y; induction vouchers as [|v vs IH]; intros idx y; [reflexivity|].
  cbn [loop render_loop page_breaks List.length seq map filter].
  change (Z.of_nat 1) with 1%Z.
  assert (E : map (fun j => (idx + Z.of_nat j)%Z) (seq 2 (List.length vs))
              = map (fun j => (idx + 1 + Z.of_nat j)%Z) (seq 1 (List.length vs))).
  { rewrite <- seq_shift, map_map. apply map_ext. intros j. lia. }
  rewrite E. unfold breaks_after at 1.
  destruct (_ && _)%bool; cbn [page_breaks]; fold loop; now rewrite IH.
Qed.

(** The voucher at position [i] is on the page and in the slot its index
    gives: page [index / vouchers_per_page], and [index mod
    vouchers_per_page] boxes (each with the spacing below it) down from
    the top. *)
Lemma render_loop_placement (vouchers : list Voucher) :
  (0 < vouchers_per_page)%Z ->
  forall (page idx : Z) (y : Q) (i : nat) (v : Voucher),
    total = (idx + Z.of_nat (List.length vouchers))%Z ->
    y == top - inject_Z (idx mod vouchers_per_page) * (height + spacing) ->
    nth_error vouchers i = Some v ->
    exists y',
      nth_error (placements page (loop idx y vouchers)) i
      = Some (v, (page + ((idx + Z.of_nat i) / vouchers_per_page
                          - idx / vouchers_per_page))%Z,
              (x, y', width, height))
      /\ y' == top - inject_Z ((idx + Z.of_nat i) mod vouchers_per_page)
                     * (height + spacing).
Proof.
  intros Hn. induction vouchers as [|v0 vs IH]; intros page idx y i v Htot Hy Hi.
  - now destruct i.
  - destruct i as [|i].
    + injection Hi as <-. exists y. cbn [loop render_loop placements nth_error].
      rewrite Z.add_0_r, Z.sub_diag, Z.add_0_r. split; [reflexivity | exact Hy].
    + cbn [nth_error] in Hi. cbn [loop render_loop placements nth_error].
      cbn [List.length] in Htot.
      assert (Ei : (idx + Z.of_nat (S i) = idx + 1 + Z.of_nat i)%Z) by lia.
      rewrite Ei.
      assert (Hlen : (i < List.length vs)%nat)
        by (apply nth_error_Some; congruence).
      destruct ((idx + 1) mod vouchers_per_page =? 0)%Z eqn:Em.
      * apply Z.eqb_eq in Em.
        destruct (idx + 1 =? total)%Z eqn:Et; [apply Z.eqb_eq in Et; lia|].
        cbn [andb negb placements]. fold loop.
        destruct (IH (page + 1)%Z (idx + 1)%Z top i v) as [y' [H1 H2]];
          [lia | rewrite Em; ring | exact Hi |].
        exists y'. split; [|exact H2]. rewrite H1. do 3 f_equal.
        rewrite (next_index_break _ _ Hn Em). lia.
      * apply Z.eqb_neq in Em. cbn [andb]. fold loop.
        destruct (next_index_same_page _ _ Hn Em) as [Hd Hm].
        destruct (IH page (idx + 1)%Z (y - (height + spacing)) i v) as [y' [H1 H2]];
          [lia | | exact Hi |].
        { rewrite Hy, Hm, inject_Z_plus. change (inject_Z 1) with 1. ring. }
        exists y'. split; [|exact H2]. rewrite H1. do 3 f_equal. lia.
Qed.

End LoopProperties.

Lemma table_bottom_below_top (y height : Q) :
  Qeq_bool (table_bottom y height) (table_top y height) = false.
Proof.
  destruct (Qeq_bool _ _) eqn:E; [|reflexivity].
  apply Qeq_bool_iff in E. unfold table_bottom in E.
  assert (H : table_height == 0) by lra.
  vm_compute in H. discriminate.
Qed.

Section LayoutTheorems.
Context {lib : PyLib}.

(** C5. For a positive [vouchers_per_page]: every box is
    [page_width - 2*margin] wide and
    [(page_height - 2*margin - spacing*(vouchers_per_page - 1)) /
    vouchers_per_page] high, on an A4 page; the vouchers are drawn once
    each in input order, the one of index [i] on page
    [i / vouchers_per_page], with its lower edge
    [i mod vouchers_per_page] box-and-spacing steps below the first box of
    the page; and a page break follows the [k]-th voucher exactly when
    [k] is a multiple of [vouchers_per_page] and not the last. *)
Theorem render_calls_layout (vouchers : list Voucher) (vouchers_per_page : Z)
    (config : Config) :
  (0 < vouchers_per_page)%Z ->
  let margin := config_margin config in
  let spacing := config_spacing config in
  let height := voucher_height vouchers_per_page config in
  let width := voucher_width config in
  exists calls : list render_call,
    render_calls vouchers vouchers_per_page config = Ok calls
    /\ height = (297 * mm - 2 * margin - spacing * inject_Z (vouchers_per_page - 1))
                / inject_Z vouchers_per_page
    /\ width = 210 * mm - 2 * margin
    /\ map (fun p => fst (fst p)) (placements 0 calls) = vouchers
    /\ (forall (i : nat) (v : Voucher),
           nth_error vouchers i = Some v ->
           exists y,
             nth_error (placements 0 calls) i
             = Some (v, (Z.of_nat i / vouchers_per_page)%Z, (margin, y, width, height))
             /\ y == (297 * mm - margin - height)
                     - inject_Z (Z.of_nat i mod vouchers_per_page) * (height + spacing))
    /\ page_breaks 0 calls
       = filter (breaks_after vouchers_per_page (Z.of_nat (List.length vouchers)))
                (map Z.of_nat (seq 1 (List.length vouchers))).
Proof.
  intros Hn. cbv zeta.
  unfold render_calls. destruct (Z.eqb_spec vouchers_per_page 0) as [E|_]; [lia|].
  eexists. split; [reflexivity|].
  split; [reflexivity|]. split; [reflexivity|].
  rewrite placements_app, page_breaks_app. split; [apply render_loop_vouchers|].
  split.
  - intros i v Hi.
    destruct (render_loop_placement vouchers_per_page (Z.of_nat (List.length vouchers))
                (config_margin config) (page_top vouchers_per_page config)
                (voucher_width config) (voucher_height vouchers_per_page config)
                (config_spacing config)
                vouchers Hn 0%Z 0%Z (page_top vouchers_per_page config) i v)
      as [y [H1 H2]]; [lia | rewrite Z.mod_0_l by lia; change (inject_Z 0) with 0; ring
                      | exact Hi |].
    rewrite Z.div_0_l, !Z.add_0_l, Z.sub_0_r in H1 by lia.
    rewrite Z.add_0_l in H2.
    exists y. split; [exact H1 | exact H2].
  - apply render_loop_breaks.
Qed.

(** C6, as the code has it. With [vouchers_per_page = 0] the computation
    of the voucher height raises a division error before anything is
    drawn. With any other value nothing is checked: the renderer returns
    normally, having drawn every voucher in a box of the computed height,
    whatever the sign of that height. *)
Theorem render_only_fails_on_zero (vouchers : list Voucher) (vouchers_per_page : Z)
    (config : Config) :
  render_vouchers_to_pdf vouchers vouchers_per_page config
  = (if (vouchers_per_page =? 0)%Z then Raise ZeroDivisionError
     else Ok (flat_map (perform config)
                (render_loop vouchers_per_page (Z.of_nat (List.length vouchers))
                   (config_margin config) (page_top vouchers_per_page config)
                   (voucher_width config) (voucher_height vouchers_per_page config)
                   (config_spacing config) 0%Z (page_top vouchers_per_page config)
                   vouchers
                 ++ [call_save])))
  /\ (forall calls, render_calls vouchers vouchers_per_page config = Ok calls ->
        map (fun p => fst (fst p)) (placements 0 calls) = vouchers
        /\ Forall (fun p => let '(_, _, _, box_height) := snd p in
                            box_height = voucher_height vouchers_per_page config)
                  (placements 0 calls)).
Proof.
  unfold render_vouchers_to_pdf, render_calls.
  destruct (vouchers_per_page =? 0)%Z; simpl; split; try reflexivity; try discriminate.
  intros calls H. injection H as <-. rewrite placements_app.
  split; [apply render_loop_vouchers|].
  eapply Forall_impl; [|apply render_loop_boxes].
  intros [[v p] [[[bx by'] bw] bh]]; simpl. tauto.
Qed.

(** C8, as the code has it. The table is one frame cut by three row
    separators and three column separators. The separators are placed by
    the column widths and the row height alone: the row separators one,
    two and three row heights below the top of the table, the column
    separators at the running sums of the column widths from its left
    edge. That makes four rows, of which the first three are one row
    height (6 mm) high and the fourth, the total row, is 4 mm higher. *)
Theorem draw_voucher_table (voucher : Voucher) (x y width height : Q) (config : Config) :
  let ops := draw_voucher voucher x y width height config in
  table_frames ops
  = [(table_left x, table_bottom y height, table_width width, table_height)]
  /\ row_separators ops
     = [table_top y height - 1 * line_height;
        table_top y height - 2 * line_height;
        table_top y height - 3 * line_height]
  /\ column_separators ops
     = [table_left x + summary_width width;
        table_left x + summary_width width + account_width width;
        table_left x + summary_width width + account_width width + amount_width width]
  /\ List.length (row_heights ops) = 4%nat
  /\ Forall2 Qeq (row_heights ops)
             [line_height; line_height; line_height; line_height + mm_to_pt 4]
  /\ table_bottom y height == table_top y height - (4 * line_height + mm_to_pt 4).
Proof.
  intros ops.
  assert (Hf : table_frames ops
               = [(table_left x, table_bottom y height, table_width width, table_height)])
    by reflexivity.
  assert (Hr : row_separators ops
               = [table_top y height - 1 * line_height;
                  table_top y height - 2 * line_height;
                  table_top y height - 3 * line_height]).
  { subst ops.
    cbv [draw_voucher row_separators row_rule flat_map app map enumerate_from positions
         inject_Z].
    rewrite !table_bottom_below_top, !Qeq_bool_refl. reflexivity. }
  assert (Hc : column_separators ops
               = [table_left x + summary_width width;
                  table_left x + summary_width width + account_width width;
                  table_left x + summary_width width + account_width width
                  + amount_width width]).
  { subst ops.
    cbv [draw_voucher column_separators column_rule flat_map app map enumerate_from
         positions inject_Z].
    rewrite !table_bottom_below_top, !Qeq_bool_refl. reflexivity. }
  split; [exact Hf|]. split; [exact Hr|]. split; [exact Hc|].
  unfold row_heights. rewrite Hf, Hr. cbn [app gaps List.length].
  split; [reflexivity|]. split.
  - unfold table_bottom, table_height. repeat constructor; ring.
  - unfold table_bottom, table_height. ring.
Qed.

End LayoutTheorems.

(* ================================================================== *)
(** * The properties on concrete statements *)

(** The scenario of the specification: secondary aliases resolve, the blank
    description is replaced, the malformed debit counts as zero, the row
    without an amount takes no number. *)
Example load_vouchers_sample :
  load_vouchers (lib := Sample.lib) Sample.statement true Sample.rules 1
                "其他应收款" "银行存款"
  = Ok Sample.vouchers.
Proof. vm_compute. reflexivity. Qed.

(** Four rows, one of them without an amount and one with a negative
    debit: the three vouchers have positive amounts. *)
Lemma build_vouchers_amounts_witness :
  Forall (fun v => float_pos (amount v) = true)
         (build_vouchers (lib := Sample.lib) Sample.rows Sample.rules 1 "D" "C").
Proof.
  apply (build_vouchers_amounts (lib := Sample.lib) Sample.rules 1 "D" "C" Sample.rows).
  repeat constructor.
Defined.

(** A statement whose second row has no date does not load. *)
Lemma parse_csv_date_fatal_amount_coerced_witness :
  exists e,
    parse_csv (lib := Sample.lib) Sample.statement_without_a_date false = Raise e
    /\ (e = ValueError empty_date_message \/ e = DateParseError).
Proof.
  apply (parse_csv_date_fatal_amount_coerced (lib := Sample.lib)
           Sample.statement_without_a_date false).
  - reflexivity.
  - apply Exists_cons_tl, Exists_cons_hd. left. reflexivity.
Defined.

(** Three vouchers per page, default margin and spacing, four vouchers:
    three on the first page, a page break, the fourth on the second page. *)
Lemma render_calls_layout_witness :
  exists calls,
    render_calls Sample.vouchers 3 Sample.config = Ok calls
    /\ map (fun p => snd (fst p)) (placements 0 calls) = [0; 0; 0; 1]%Z
    /\ page_breaks 0 calls = [3%Z].
Proof.
  destruct (render_calls_layout Sample.vouchers 3 Sample.config eq_refl)
    as (calls & Hcalls & _ & _ & _ & _ & Hbreaks).
  exists calls. split; [exact Hcalls|]. split; [|exact Hbreaks].
  injection Hcalls as <-. reflexivity.
Defined.

(** C6 as stated fails: with [vouchers_per_page = -1], and with three per
    page and a margin of 200 mm, the computed height is negative, no error
    is reported and the first thing drawn is a box of that height. *)
Lemma render_draws_boxes_of_negative_height :
  voucher_height (-1) Sample.config < 0
  /\ (exists ops,
         render_vouchers_to_pdf (lib := Sample.lib) Sample.vouchers (-1) Sample.config
         = Ok ops
         /\ hd_error ops
            = Some (roundRect (config_margin Sample.config) (page_top (-1) Sample.config)
                              (voucher_width Sample.config)
                              (voucher_height (-1) Sample.config) 4))
  /\ voucher_height 3 Sample.wide_margin_config < 0
  /\ (exists ops,
         render_vouchers_to_pdf (lib := Sample.lib) Sample.vouchers 3
                                Sample.wide_margin_config
         = Ok ops
         /\ hd_error ops
            = Some (roundRect (config_margin Sample.wide_margin_config)
                              (page_top 3 Sample.wide_margin_config)
                              (voucher_width Sample.wide_margin_config)
                              (voucher_height 3 Sample.wide_margin_config) 4)).
Proof.
  split; [reflexivity|]. split; [eexists; split; reflexivity|].
  split; [reflexivity|]. eexists; split; reflexivity.
Qed.

(** C7 as stated fails in its last part: a statement without a date column
    and a statement without a description column get the same error, so the
    error does not tell which field is missing. *)
Lemma parse_csv_same_error_for_different_missing_fields :
  parse_csv (lib := Sample.lib) (mkDataFrame ["摘要"; "借方"] []) true
  = parse_csv (lib := Sample.lib) (mkDataFrame ["日期"; "借方"] []) true
  /\ parse_csv (lib := Sample.lib) (mkDataFrame ["摘要"; "借方"] []) true
     = Raise (ValueError missing_columns_message)
  /\ date_col (lib := Sample.lib) (mkDataFrame ["摘要"; "借方"] []) = None
  /\ summary_col (lib := Sample.lib) (mkDataFrame ["摘要"; "借方"] []) = Some "摘要"%string
  /\ date_col (lib := Sample.lib) (mkDataFrame ["日期"; "借方"] []) = Some "日期"%string
  /\ summary_col (lib := Sample.lib) (mkDataFrame ["日期"; "借方"] []) = None.
Proof. repeat split. Qed.

(** C8 as stated fails: in the box of the first voucher of a page of three,
    the table has four rows, 6 mm, 6 mm, 6 mm and 10 mm high. *)
Lemma draw_voucher_rows_not_equal :
  Forall2 Qeq
    (row_heights
       (draw_voucher (lib := Sample.lib) Sample.voucher
          (config_margin Sample.config) (page_top 3 Sample.config)
          (voucher_width Sample.config) (voucher_height 3 Sample.config) Sample.config))
    [mm_to_pt 6; mm_to_pt 6; mm_to_pt 6; mm_to_pt 10]
  /\ ~ mm_to_pt 6 == mm_to_pt 10.
Proof.
  split.
  - vm_compute. repeat constructor.
  - vm_compute. discriminate.
Qed.

(* ================================================================== *)
(** * Further properties of the voucher builder and the classifier *)

Local Open Scope Z_scope.

Lemma string_length_app (a b : string) :
  String.length (a ++ b) = (String.length a + String.length b)%nat.
Proof. induction a as [|c a IH]; simpl; [reflexivity | now rewrite IH]. Qed.

Lemma zeros_length (n : nat) : String.length (zeros n) = n.
Proof. induction n as [|n IH]; simpl; [reflexivity | now rewrite IH]. Qed.

Lemma format_03d_small_range :
  forallb (fun n => Nat.eqb (String.length (format_03d n)) 3)
          (map (fun k => -99 + Z.of_nat k) (seq 0 1099)) = true.
Proof. vm_compute. reflexivity. Qed.

(** X1. A formatted number is at least three characters wide, and exactly
    three for the integers from -99 to 999. *)
Theorem format_03d_width (n : Z) :
  -99 <= n <= 999 ->
  String.length (format_03d n) = 3%nat
  /\ forall m : Z, (3 <= String.length (format_03d m))%nat.
Proof.
  intros Hn. split.
  - assert (H := format_03d_small_range). rewrite forallb_forall in H.
    apply Nat.eqb_eq, H, in_map_iff. exists (Z.to_nat (n + 99)).
    split; [lia | apply in_seq; lia].
  - intros m. unfold format_03d.
    rewrite !string_length_app, zeros_length. lia.
Qed.

Lemma string_app_inv_head (p a b : string) : (p ++ a = p ++ b)%string -> a = b.
Proof.
  induction p as [|c p IH]; simpl; intros H; [exact H|].
  injection H as H. now apply IH.
Qed.

Lemma string_app_inv_tail (a b q : string) : (a ++ q = b ++ q)%string -> a = b.
Proof.
  revert b; induction a as [|c a IH]; intros b H.
  - destruct b as [|d b]; [reflexivity|]. exfalso.
    apply (f_equal String.length) in H. simpl in H.
    rewrite string_length_app in H. lia.
  - destruct b as [|d b].
    + exfalso. apply (f_equal String.length) in H. simpl in H.
      rewrite string_length_app in H. lia.
    + simpl in H. injection H as -> H. f_equal. now apply IH.
Qed.

Lemma NoDup_map_injective {A B : Type} (f : A -> B) (l : list A) :
  (forall x y, f x = f y -> x = y) -> NoDup l -> NoDup (map f l).
Proof.
  intros Hf. induction 1 as [|x l Hx _ IH]; simpl; constructor; [|exact IH].
  intros Hin. apply in_map_iff in Hin as [y [Hy Hin]].
  apply Hf in Hy. now subst.
Qed.

Lemma format_03d_seq_NoDup (k : Z) (n : nat) :
  NoDup (map (fun i => format_03d (k + Z.of_nat i)) (seq 0 n)).
Proof.
  apply NoDup_map_injective; [|apply seq_NoDup].
  intros i j H. apply (f_equal number_value) in H.
  rewrite !number_value_format_03d in H. injection H as H. lia.
Qed.

Lemma str_or_truthy (a b : string) : str_truthy b = true -> str_truthy (str_or a b) = true.
Proof. intros H. unfold str_or. now destruct (str_truthy a) eqn:E. Qed.

Section BuilderFurther.
Context {lib : PyLib}.
Variables (mapping_rules : list Rule.t) (fallback_debit fallback_credit : string).

Local Abbreviation voucher_for := (voucher_for mapping_rules fallback_debit fallback_credit).
Local Abbreviation vouchers_from :=
  (vouchers_from mapping_rules fallback_debit fallback_credit).
Local Abbreviation build rows start_number :=
  (build_vouchers rows mapping_rules start_number fallback_debit fallback_credit).

(** A field of the vouchers that does not depend on their numbers is read
    off the rows that are not skipped, in order. *)
Lemma vouchers_from_field {A : Type} (g : Voucher -> A) (h : TransactionRow.t -> A) :
  (forall k row, g (voucher_for k row) = h row) ->
  forall k rows, map g (vouchers_from k rows) = map h (filter nonzero_row rows).
Proof.
  intros Hg k rows. revert k; induction rows as [|row rows IH]; intros k; simpl;
    [reflexivity|].
  assert (E := select_amount_eq0 row).
  destruct (nonzero_row row); simpl in E; rewrite E; simpl; [|apply IH].
  now rewrite Hg, IH.
Qed.

Lemma vouchers_from_app (k : Z) (rows1 rows2 : list TransactionRow.t) :
  vouchers_from k (rows1 ++ rows2)
  = vouchers_from k rows1
    ++ vouchers_from (k + Z.of_nat (List.length (vouchers_from k rows1))) rows2.
Proof.
  revert k; induction rows1 as [|row rows1 IH]; intros k; simpl.
  - now rewrite Z.add_0_r.
  - destruct (float_eq0 (select_amount row)); [apply IH|].
    simpl. rewrite IH. do 3 f_equal. lia.
Qed.

(** X2. No two vouchers of one run carry the same number. *)
Theorem build_vouchers_numbers_distinct (rows : list TransactionRow.t) (start_number : Z) :
  NoDup (map number (build rows start_number)).
Proof.
  rewrite build_vouchers_eq, vouchers_from_numbers. apply format_03d_seq_NoDup.
Qed.

(** X3. No voucher has an empty description: it is the stripped summary of
    its row, or the placeholder when that is empty. *)
Theorem build_vouchers_descriptions (rows : list TransactionRow.t) (start_number : Z) :
  Forall (fun v => description v <> EmptyString) (build rows start_number)
  /\ map description (build rows start_number)
     = map (fun row => if str_truthy (str_strip (TransactionRow.summary row))
                       then str_strip (TransactionRow.summary row)
                       else "银行流水"%string)
           (filter nonzero_row rows).
Proof.
  assert (H : map description (build rows start_number)
              = map (fun row => if str_truthy (str_strip (TransactionRow.summary row))
                                then str_strip (TransactionRow.summary row)
                                else "银行流水"%string)
                    (filter nonzero_row rows)).
  { rewrite build_vouchers_eq. apply vouchers_from_field.
    intros k row. unfold voucher_for.
    now destruct (map_entry_to_accounts _ _ _ _). }
  split; [|exact H].
  apply Forall_forall. intros v Hv. apply (in_map description) in Hv.
  rewrite H in Hv. apply in_map_iff in Hv as [row [<- _]].
  destruct (str_truthy (str_strip (TransactionRow.summary row))) eqn:E.
  - now apply str_truthy_iff.
  - discriminate.
Qed.

(** X4. The vouchers follow the rows that are not skipped, in their order:
    each carries the date of its row and the accounts the classifier gives
    for the summary of its row as it stands (not stripped). *)
Theorem build_vouchers_follow_rows (rows : list TransactionRow.t) (start_number : Z) :
  map date (build rows start_number) = map TransactionRow.date (filter nonzero_row rows)
  /\ map (fun v => (debit_account v, credit_account v)) (build rows start_number)
     = map (fun row => map_entry_to_accounts (TransactionRow.summary row) mapping_rules
                                             fallback_debit fallback_credit)
           (filter nonzero_row rows).
Proof.
  rewrite build_vouchers_eq. split; apply vouchers_from_field; intros k row;
    unfold voucher_for; now destruct (map_entry_to_accounts _ _ _ _).
Qed.

(** X5. Building the vouchers of two batches of rows in one run is building
    those of the first batch and then those of the second from the next free
    number. *)
Theorem build_vouchers_app (rows1 rows2 : list TransactionRow.t) (start_number : Z) :
  build (rows1 ++ rows2) start_number
  = build rows1 start_number
    ++ build rows2 (start_number + Z.of_nat (List.length (build rows1 start_number))).
Proof. rewrite !build_vouchers_eq. apply vouchers_from_app. Qed.

End BuilderFurther.

(** X6. A rule whose keyword does not occur in the description can be
    removed from the rule list without changing the accounts. *)
Theorem map_entry_unmatched_rule_ignored (summary : string) (rule : Rule.t) :
  (forall kw, rule_get_keyword rule = PyStr kw -> ~ Substring kw summary) ->
  forall (pre post : list Rule.t) (fd fc : string),
    map_entry_to_accounts summary (pre ++ rule :: post) fd fc
    = map_entry_to_accounts summary (pre ++ post) fd fc.
Proof.
  intros H pre post fd fc. apply map_entry_skip. apply rule_matches_false_iff.
  intros (kw & Hkw & _ & Hsub). exact (H kw Hkw Hsub).
Qed.

(** X7. The classifier invents no account: each side of its result is the
    fallback of that side or the entry of that side of a rule of the
    list. *)
Theorem map_entry_accounts_origin (summary : string) (rules : list Rule.t)
    (fd fc : string) :
  (fst (map_entry_to_accounts summary rules fd fc) = fd
   \/ exists rule, In rule rules
        /\ Rule.debit_account rule = Some (fst (map_entry_to_accounts summary rules fd fc)))
  /\ (snd (map_entry_to_accounts summary rules fd fc) = fc
      \/ exists rule, In rule rules
           /\ Rule.credit_account rule
              = Some (snd (map_entry_to_accounts summary rules fd fc))).
Proof.
  induction rules as [|r rules [IHd IHc]]; simpl; [auto|].
  destruct (rule_matches r summary); simpl.
  - split.
    + destruct (Rule.debit_account r) eqn:E; simpl; [right; exists r | left]; auto.
    + destruct (Rule.credit_account r) eqn:E; simpl; [right; exists r | left]; auto.
  - split.
    + destruct IHd as [H | [rule [Hin H]]]; [left | right; exists rule]; auto.
    + destruct IHc as [H | [rule [Hin H]]]; [left | right; exists rule]; auto.
Qed.

(* ================================================================== *)
(** * Further properties of the statement normaliser *)

Lemma apply_each_length {A B : Type} (f : A -> result B) (xs : list A) (ys : list B) :
  apply_each f xs = Ok ys -> List.length ys = List.length xs.
Proof.
  revert ys; induction xs as [|x xs IH]; intros ys; simpl.
  - intros H. now injection H as <-.
  - destruct (f x); simpl; [|discriminate].
    destruct (apply_each f xs) as [zs|]; simpl; [|discriminate].
    intros H. injection H as <-. simpl. f_equal. now apply IH.
Qed.

Lemma apply_each_first_raise {A B : Type} (f : A -> result B)
    (pre : list A) (x : A) (post : list A) (e : exn) :
  Forall (fun a => exists b, f a = Ok b) pre ->
  f x = Raise e ->
  apply_each f (pre ++ x :: post) = Raise e.
Proof.
  intros Hpre Hx. induction Hpre as [|a pre [b Hb] _ IH]; simpl.
  - now rewrite Hx.
  - now rewrite Hb, IH.
Qed.

Section NormaliserFurther.
Context {lib : PyLib}.

(** X8. The zero filter only removes rows from what [parse_csv] returns
    without it: when the unfiltered load returns rows, there is one for
    each row of the statement and the filtered load returns those with a
    non-zero amount, in the same order; when it raises, the filtered load
    raises the same error. *)
Theorem parse_csv_filter_after (df : DataFrame) :
  match parse_csv df false with
  | Ok rows =>
      List.length rows = List.length (data df)
      /\ parse_csv df true = Ok (filter nonzero_row rows)
  | Raise e => parse_csv df true = Raise e
  end.
Proof.
  rewrite !parse_csv_eq. destruct (resolved df); [|reflexivity].
  destruct (apply_each parse_date (map Selected.date (selected df))) as [dates|e] eqn:E;
    simpl; [|reflexivity].
  split; [|reflexivity].
  apply apply_each_length in E.
  rewrite length_map, length_combine, E, length_map.
  unfold selected. rewrite length_map. apply Nat.min_id.
Qed.

(** X9. The dates are read in row order and the first one that cannot be
    read ends the load with its own error, whatever the rows after it
    hold. *)
Theorem parse_csv_first_unreadable_date (df : DataFrame) (filter_zero : bool)
    (pre : list Selected.t) (sel : Selected.t) (post : list Selected.t) (e : exn) :
  resolved df = true ->
  selected df = pre ++ sel :: post ->
  Forall (fun s => ~ date_unreadable (Selected.date s)) pre ->
  parse_date (Selected.date sel) = Raise e ->
  parse_csv df filter_zero = Raise e.
Proof.
  intros Hres Hsel Hpre He. rewrite parse_csv_eq, Hres, Hsel, map_app. simpl.
  rewrite (apply_each_first_raise parse_date _ _ _ e); [reflexivity | | exact He].
  apply Forall_forall. intros c Hc. apply in_map_iff in Hc as [s [<- Hs]].
  apply parse_date_readable. rewrite Forall_forall in Hpre. now apply Hpre.
Qed.

Lemma try_formats_None (text : string) (formats : list string) :
  try_formats text formats = None
  <-> Forall (fun fmt => strptime text fmt = None) formats.
Proof.
  induction formats as [|fmt formats IH]; simpl.
  - split; [constructor | reflexivity].
  - destruct (strptime text fmt) eqn:E.
    + split; [discriminate|]. intros H. inversion H; congruence.
    + rewrite IH. split; [now constructor | intros H; now inversion H].
Qed.

Lemma try_formats_Some (text : string) (formats : list string) (d : datetime) :
  try_formats text formats = Some d
  <-> exists pre fmt post,
        formats = pre ++ fmt :: post
        /\ Forall (fun f => strptime text f = None) pre
        /\ strptime text fmt = Some d.
Proof.
  induction formats as [|f formats IH]; simpl.
  - split; [discriminate|]. intros (pre & fmt & post & H & _). now destruct pre.
  - destruct (strptime text f) as [d0|] eqn:E.
    + split.
      * intros H. injection H as <-. exists [], f, formats. repeat split; auto.
      * intros (pre & fmt & post & H & Hpre & Hfmt). destruct pre as [|p pre].
        -- injection H as <- _. congruence.
        -- injection H as <- _. inversion Hpre; congruence.
    + rewrite IH. split.
      * intros (pre & fmt & post & H & Hpre & Hfmt). exists (f :: pre), fmt, post.
        repeat split; [now rewrite H | now constructor | exact Hfmt].
      * intros (pre & fmt & post & H & Hpre & Hfmt). destruct pre as [|p pre].
        -- injection H as <- _. congruence.
        -- injection H as <- H. inversion Hpre; subst. exists pre, fmt, post. auto.
Qed.

(** X10. The order in which [parse_date] reads a cell: a cell that is not
    missing gives the date [d] exactly when it is the datetime [d] itself,
    or, not being a datetime, its stripped text is read as [d] by the first
    of the four patterns (slash, dash, dot, no separator) that reads it at
    all, or no pattern reads it and pandas reads [d]. *)
Theorem parse_date_order (c : cell) (d : datetime) :
  parse_date c = Ok d
  <-> isna c = false
      /\ (c = Dt d
          \/ ((forall d', c <> Dt d')
              /\ ((exists pre fmt post,
                      date_formats = pre ++ fmt :: post
                      /\ Forall (fun f => strptime (str_strip (py_str c)) f = None) pre
                      /\ strptime (str_strip (py_str c)) fmt = Some d)
                  \/ (Forall (fun f => strptime (str_strip (py_str c)) f = None)
                             date_formats
                      /\ pd_to_datetime c = Some d)))).
Proof.
  rewrite <- try_formats_Some, <- try_formats_None. unfold parse_date.
  destruct (isna c) eqn:En.
  - split; [discriminate | intros [H _]; discriminate].
  - assert (Hrest :
      match try_formats (str_strip (py_str c)) date_formats with
      | Some d0 => Ok d0
      | None => match pd_to_datetime c with
                | Some d0 => Ok d0
                | None => Raise DateParseError
                end
      end = Ok d
      <-> try_formats (str_strip (py_str c)) date_formats = Some d
          \/ (try_formats (str_strip (py_str c)) date_formats = None
              /\ pd_to_datetime c = Some d)).
    { destruct (try_formats _ date_formats) as [d0|].
      - split.
        + intros H. injection H as <-. now left.
        + intros [H | [H _]]; [now injection H as <- | discriminate].
      - destruct (pd_to_datetime c) as [d0|].
        + split.
          * intros H. injection H as <-. now right.
          * intros [H | [_ H]]; [discriminate | now injection H as <-].
        + split; [discriminate | intros [H | [_ H]]; discriminate]. }
    destruct c as [| s | x | d0].
    + rewrite Hrest. split.
      * intros H. split; [reflexivity|]. right. split; [discriminate | exact H].
      * intros [_ [H | [_ H]]]; [discriminate | exact H].
    + rewrite Hrest. split.
      * intros H. split; [reflexivity|]. right. split; [discriminate | exact H].
      * intros [_ [H | [_ H]]]; [discriminate | exact H].
    + rewrite Hrest. split.
      * intros H. split; [reflexivity|]. right. split; [discriminate | exact H].
      * intros [_ [H | [_ H]]]; [discriminate | exact H].
    + split.
      * intros H. injection H as <-. split; [reflexivity | now left].
      * intros [_ [H | [H _]]]; [now injection H as <- | now destruct (H d0)].
Qed.

(** X11. Every voucher of a load has a strictly positive amount, whatever
    the cells of the statement hold. *)
Theorem load_vouchers_amounts_positive (df : DataFrame) (filter_zero : bool)
    (mapping_rules : list Rule.t) (start_number : Z)
    (fallback_debit fallback_credit : string) (vouchers : list Voucher) :
  load_vouchers df filter_zero mapping_rules start_number fallback_debit fallback_credit
  = Ok vouchers ->
  Forall (fun v => float_pos (amount v) = true) vouchers.
Proof.
  unfold load_vouchers. destruct (parse_csv df filter_zero) as [rows|e] eqn:E;
    simpl; [|discriminate].
  intros H. injection H as <-. apply parse_csv_normalised in E.
  rewrite build_vouchers_eq. apply Forall_forall. intros v Hv.
  apply (in_map amount) in Hv. rewrite vouchers_from_amounts in Hv.
  apply in_map_iff in Hv as [row [<- Hrow]]. apply filter_In in Hrow as [Hin Hne].
  apply abs_pos.
  - apply select_amount_not_nan. rewrite Forall_forall in E. now apply E.
  - rewrite float_ne0_negb in Hne. now destruct (float_eq0 (select_amount row)).
Qed.

End NormaliserFurther.

(* ================================================================== *)
(** * Properties of the readers of files *)

Lemma try_encodings_ok (read_csv : string -> read_outcome) (encs errors : list string)
    (df : DataFrame) :
  try_encodings read_csv encs errors = CsvOk df
  <-> exists pre enc post,
        encs = pre ++ enc :: post
        /\ Forall (fun e => exists text, read_csv e = ReadUndecodable text) pre
        /\ read_csv enc = ReadOk df.
Proof.
  revert errors; induction encs as [|e encs IH]; intros errors; simpl.
  - split; [discriminate|]. intros (pre & enc & post & H & _). now destruct pre.
  - destruct (read_csv e) as [df0 | text | text] eqn:E.
    + split.
      * intros H. injection H as <-. exists [], e, encs. repeat split; auto.
      * intros (pre & enc & post & H & Hpre & Henc). destruct pre as [|p pre].
        -- injection H as <- _. congruence.
        -- injection H as <- _. inversion Hpre as [|? ? [t Ht] _]; congruence.
    + rewrite IH. split.
      * intros (pre & enc & post & H & Hpre & Henc). exists (e :: pre), enc, post.
        repeat split; [now rewrite H | constructor; eauto | exact Henc].
      * intros (pre & enc & post & H & Hpre & Henc). destruct pre as [|p pre].
        -- injection H as <- _. congruence.
        -- injection H as <- H. inversion Hpre; subst. exists pre, enc, post. auto.
    + split; [discriminate|].
      intros (pre & enc & post & H & Hpre & Henc). destruct pre as [|p pre].
      * injection H as <- _. congruence.
      * injection H as <- _. inversion Hpre as [|? ? [t Ht] _]; congruence.
Qed.

Lemma try_encodings_failed (read_csv : string -> read_outcome) (encs errors : list string)
    (text : string) :
  try_encodings read_csv encs errors = CsvFailed text
  <-> exists pre enc post,
        encs = pre ++ enc :: post
        /\ Forall (fun e => exists t, read_csv e = ReadUndecodable t) pre
        /\ read_csv enc = ReadFailed text.
Proof.
  revert errors; induction encs as [|e encs IH]; intros errors; simpl.
  - split; [discriminate|]. intros (pre & enc & post & H & _). now destruct pre.
  - destruct (read_csv e) as [df0 | t0 | t0] eqn:E.
    + split; [discriminate|].
      intros (pre & enc & post & H & Hpre & Henc). destruct pre as [|p pre].
      * injection H as <- _. congruence.
      * injection H as <- _. inversion Hpre as [|? ? [t Ht] _]; congruence.
    + rewrite IH. split.
      * intros (pre & enc & post & H & Hpre & Henc). exists (e :: pre), enc, post.
        repeat split; [now rewrite H | constructor; eauto | exact Henc].
      * intros (pre & enc & post & H & Hpre & Henc). destruct pre as [|p pre].
        -- injection H as <- _. congruence.
        -- injection H as <- H. inversion Hpre; subst. exists pre, enc, post. auto.
    + split.
      * intros H. injection H as <-. exists [], e, encs. repeat split; auto.
      * intros (pre & enc & post & H & Hpre & Henc). destruct pre as [|p pre].
        -- injection H as <- _. congruence.
        -- injection H as <- _. inversion Hpre as [|? ? [t Ht] _]; congruence.
Qed.

Lemma try_encodings_undecodable (read_csv : string -> read_outcome)
    (encs errors : list string) (reason : string) :
  try_encodings read_csv encs errors = CsvUndecodable reason
  <-> exists texts,
        Forall2 (fun e t => read_csv e = ReadUndecodable t) encs texts
        /\ reason = ("尝试的编码失败：" ++ String.concat " | " (errors ++ texts))%string.
Proof.
  revert errors; induction encs as [|e encs IH]; intros errors; simpl.
  - split.
    + intros H. injection H as <-. exists []. rewrite app_nil_r. split; [constructor | reflexivity].
    + intros (texts & H & ->). inversion H. now rewrite app_nil_r.
  - destruct (read_csv e) as [df0 | t0 | t0] eqn:E.
    + split; [discriminate|]. intros (texts & H & _). inversion H; congruence.
    + rewrite IH. split.
      * intros (texts & H & ->). exists (t0 :: texts).
        split; [now constructor | now rewrite <- app_assoc].
      * intros (texts & H & ->). inversion H as [|? t ? ts Ht Hts]; subst.
        assert (t = t0) by congruence. subst. exists ts.
        split; [exact Hts | now rewrite <- app_assoc].
    + split; [discriminate|]. intros (texts & H & _). inversion H; congruence.
Qed.

(** X12. [try_read_csv] returns the frame of the first of utf-8, gbk and
    gb2312 under which the file reads, the earlier ones having failed to
    decode it; an error of another kind under an encoding it reaches ends
    the attempts at once; and it reaches its own [raise] exactly when the
    three encodings all fail to decode, with their three messages, in
    order, joined by [" | "]. *)
Theorem try_read_csv_first_encoding (read_csv : string -> string -> read_outcome)
    (csv_path : string) :
  (forall df,
      try_read_csv read_csv csv_path = CsvOk df
      <-> exists pre enc post,
            encodings = pre ++ enc :: post
            /\ Forall (fun e => exists t, read_csv csv_path e = ReadUndecodable t) pre
            /\ read_csv csv_path enc = ReadOk df)
  /\ (forall text,
         try_read_csv read_csv csv_path = CsvFailed text
         <-> exists pre enc post,
               encodings = pre ++ enc :: post
               /\ Forall (fun e => exists t, read_csv csv_path e = ReadUndecodable t) pre
               /\ read_csv csv_path enc = ReadFailed text)
  /\ (forall reason,
         try_read_csv read_csv csv_path = CsvUndecodable reason
         <-> exists t1 t2 t3,
               read_csv csv_path "utf-8" = ReadUndecodable t1
               /\ read_csv csv_path "gbk" = ReadUndecodable t2
               /\ read_csv csv_path "gb2312" = ReadUndecodable t3
               /\ reason = ("尝试的编码失败：" ++ t1 ++ " | " ++ t2 ++ " | " ++ t3)%string).
Proof.
  unfold try_read_csv. split; [intros; apply try_encodings_ok|].
  split; [intros; apply try_encodings_failed|].
  intros reason. rewrite try_encodings_undecodable. split.
  - intros (texts & H & ->). unfold encodings in H.
    inversion H as [|? t1 ? l1 H1 H']; subst.
    inversion H' as [|? t2 ? l2 H2 H'']; subst.
    inversion H'' as [|? t3 ? l3 H3 H''']; subst.
    inversion H'''; subst. exists t1, t2, t3. repeat split; assumption.
  - intros (t1 & t2 & t3 & H1 & H2 & H3 & ->). exists [t1; t2; t3].
    split; [repeat constructor; assumption | reflexivity].
Qed.

Lemma load_yaml_file_list (safe_load : string -> yaml) (path : string)
    (items : list yaml) :
  load_yaml_file safe_load path = YList items
  <-> safe_load path = YList items /\ items <> [].
Proof.
  unfold load_yaml_file.
  destruct (safe_load path) as [| b | n | x | s | l | entries]; simpl;
    try (split; [discriminate | intros [H _]; discriminate]);
    try (match goal with |- context [if ?c then _ else _] => destruct c end;
         (split; [discriminate | intros [H _]; discriminate])).
  - destruct l as [|item l].
    + split; [discriminate|]. intros [H Hne]. injection H as <-. congruence.
    + split.
      * intros H. injection H as <-. split; [reflexivity | discriminate].
      * intros [H _]. exact H.
Qed.

(** X13. [load_mapping] returns the empty list when the file is not there,
    and the list in the file when the file holds a list that is not empty;
    in every other case, among them a file that holds the empty list and a
    file that holds nothing, it raises its format error. *)
Theorem load_mapping_cases (path_exists : string -> bool) (safe_load : string -> yaml)
    (path : string) :
  (forall items,
      load_mapping path_exists safe_load path = Ok items
      <-> (path_exists path = false /\ items = [])
          \/ (path_exists path = true /\ safe_load path = YList items /\ items <> []))
  /\ (forall e,
         load_mapping path_exists safe_load path = Raise e
         <-> path_exists path = true
             /\ (forall items, safe_load path = YList items -> items = [])
             /\ e = ValueError mapping_format_message).
Proof.
  unfold load_mapping. destruct (path_exists path); simpl.
  - assert (Hother :
      (forall items, load_yaml_file safe_load path <> YList items) ->
      forall items, safe_load path = YList items -> items = []).
    { intros Hno items Hs. destruct items as [|item items]; [reflexivity|].
      exfalso. apply (Hno (item :: items)). apply load_yaml_file_list.
      split; [exact Hs | discriminate]. }
    destruct (load_yaml_file safe_load path) as [| b | n | x | s | l | entries] eqn:E;
      try (split;
           [ intros items; split;
             [ discriminate | intros [[H _] | (_ & H & Hne)]; [discriminate|];
               assert (Hl : load_yaml_file safe_load path = YList items)
                 by (apply load_yaml_file_list; auto);
               congruence ]
           | intros e; split;
             [ intros H; injection H as <-; repeat split;
               apply Hother; discriminate
             | intros (_ & _ & ->); reflexivity ] ]).
    apply load_yaml_file_list in E as [E Hne]. split.
    + intros items. split.
      * intros H. injection H as <-. right. auto.
      * intros [[H _] | (_ & H & _)]; [discriminate|]. congruence.
    + intros e. split; [discriminate|].
      intros (_ & H & _). now specialize (H _ E).
  - split.
    + intros items. split.
      * intros H. injection H as <-. now left.
      * intros [[_ ->] | (H & _)]; [reflexivity | discriminate].
    + intros e. split; [discriminate | intros (H & _); discriminate].
Qed.

Section FontProperties.
Variables (path_exists : string -> bool) (register_font : string -> string -> option string).

Lemma register_fonts_cases (paths : list string) :
  (exists pre path post,
      paths = pre ++ path :: post
      /\ Forall (fun p => ~ font_usable path_exists register_font p) pre
      /\ font_usable path_exists register_font path
      /\ register_fonts path_exists register_font paths
         = font_failures path_exists register_font pre
           ++ [FontRegistered CH_FONT path;
               Printed ("Using Chinese font: " ++ path)%string])
  \/ (Forall (fun p => ~ font_usable path_exists register_font p) paths
      /\ register_fonts path_exists register_font paths
         = font_failures path_exists register_font paths ++ [Printed no_font_warning]).
Proof.
  induction paths as [|p paths IH]; simpl.
  - right. split; [constructor | reflexivity].
  - destruct (path_exists p) eqn:Ep; [destruct (register_font CH_FONT p) as [exc|] eqn:Er|].
    + assert (Hn : ~ font_usable path_exists register_font p)
        by (unfold font_usable; intros [_ H]; congruence).
      destruct IH as [(pre & path & post & -> & Hpre & Hu & ->) | [Hall ->]].
      * left. exists (p :: pre), path, post.
        split; [reflexivity|]. split; [now constructor|]. split; [exact Hu|].
        unfold font_failures. simpl. rewrite ?Ep, ?Er. reflexivity.
      * right. split; [now constructor|].
        unfold font_failures. simpl. rewrite ?Ep, ?Er. reflexivity.
    + left. exists [], p, paths.
      split; [reflexivity|]. split; [constructor|]. split; [now split | reflexivity].
    + assert (Hn : ~ font_usable path_exists register_font p)
        by (unfold font_usable; intros [H _]; congruence).
      destruct IH as [(pre & path & post & -> & Hpre & Hu & ->) | [Hall ->]].
      * left. exists (p :: pre), path, post.
        split; [reflexivity|]. split; [now constructor|]. split; [exact Hu|].
        unfold font_failures. simpl. rewrite ?Ep. reflexivity.
      * right. split; [now constructor|].
        unfold font_failures. simpl. rewrite ?Ep. reflexivity.
Qed.

(** X14. [register_chinese_font] registers at most one font: the first of
    SimSun and SimHei whose file is there and registers, after a failure
    message for each earlier file that is there and does not. When neither
    is such a file it registers nothing and prints the warning, also when
    a file is there and fails to register. *)
Theorem register_chinese_font_cases :
  (exists pre path post,
      font_paths = pre ++ path :: post
      /\ Forall (fun p => ~ font_usable path_exists register_font p) pre
      /\ font_usable path_exists register_font path
      /\ register_chinese_font path_exists register_font
         = font_failures path_exists register_font pre
           ++ [FontRegistered CH_FONT path;
               Printed ("Using Chinese font: " ++ path)%string])
  \/ (Forall (fun p => ~ font_usable path_exists register_font p) font_paths
      /\ register_chinese_font path_exists register_font
         = font_failures path_exists register_font font_paths
           ++ [Printed no_font_warning]).
Proof. apply register_fonts_cases. Qed.

End FontProperties.

(* ================================================================== *)
(** * Further properties of the layout *)

Local Open Scope Q_scope.

Lemma single_voucher_name_injective (v1 v2 : Voucher) :
  single_voucher_name v1 = single_voucher_name v2 -> number v1 = number v2.
Proof.
  unfold single_voucher_name. intros H.
  apply string_app_inv_head in H. now apply string_app_inv_tail in H.
Qed.

Section LoopFurther.
Variables (vouchers_per_page total : Z) (x top width height spacing : Q).

Let loop := render_loop vouchers_per_page total x top width height spacing.


(** The last voucher is on the last page: its page index is the number of
    page breaks. *)
Lemma render_loop_last_page (vouchers : list Voucher) :
  forall (page idx : Z) (y : Q) (v : Voucher) (p : Z) (box : Q * Q * Q * Q),
    total = (idx + Z.of_nat (List.length vouchers))%Z ->
    nth_error (placements page (loop idx y vouchers)) (List.length vouchers - 1)
    = Some (v, p, box) ->
    p = (page + Z.of_nat (List.length (page_breaks idx (loop idx y vouchers))))%Z.
Proof.
  induction vouchers as [|v0 vs IH]; intros page idx y v p box Htot Hn.
  - discriminate.
  - cbn [loop render_loop placements page_breaks] in *. cbn [List.length] in Htot.
    destruct vs as [|v1 vs'].
    + assert (E : (idx + 1 =? total)%Z = true) by (apply Z.eqb_eq; simpl in Htot; lia).
      rewrite E, andb_false_r in *. simpl in Hn. injection Hn as _ <- _.
      simpl. lia.
    + assert (El : (List.length (v0 :: v1 :: vs') - 1
                    = S (List.length (v1 :: vs') - 1))%nat) by (simpl; lia).
      rewrite El in Hn. cbn [nth_error] in Hn. fold loop in Hn |- *.
      destruct (_ && _)%bool.
      * cbn [placements page_breaks List.length] in *.
        apply IH in Hn; [|lia]. lia.
      * apply IH in Hn; [|lia]. lia.
Qed.

End LoopFurther.

Lemma draw_voucher_column_separators {lib : PyLib} (voucher : Voucher)
    (x y width height : Q) (config : Config) :
  column_separators (draw_voucher voucher x y width height config)
  = [table_left x + summary_width width;
     table_left x + summary_width width + account_width width;
     table_left x + summary_width width + account_width width + amount_width width].
Proof.
  cbv [draw_voucher column_separators column_rule flat_map app map enumerate_from
       positions inject_Z].
  rewrite !table_bottom_below_top, !Qeq_bool_refl. reflexivity.
Qed.

Lemma voucher_height_times (vouchers_per_page : Z) (config : Config) :
  (vouchers_per_page <> 0)%Z ->
  voucher_height vouchers_per_page config * inject_Z vouchers_per_page
  == 297 * mm - 2 * config_margin config
     - config_spacing config * (inject_Z vouchers_per_page - 1).
Proof.
  intros Hn. unfold voucher_height. cbn [A4].
  unfold Zminus. rewrite inject_Z_plus. change (inject_Z (- (1))) with (- (1)).
  field. intros H. apply Hn.
  apply (inject_Z_injective vouchers_per_page 0). exact H.
Qed.

Section LayoutFurther.
Context {lib : PyLib}.
Variable path_join : string -> string -> string.

(** X15. The single-voucher documents of the vouchers of one run are saved
    under the names [voucher_<number>.pdf] in the output directory, and no
    two of them under the same path: none overwrites another. *)
Theorem render_single_vouchers_paths_distinct (rows : list TransactionRow.t)
    (mapping_rules : list Rule.t) (start_number : Z) (fallback_debit fallback_credit : string)
    (output_dir : string) (config : Config) :
  (forall a b, path_join output_dir a = path_join output_dir b -> a = b) ->
  map fst (render_single_vouchers path_join
             (build_vouchers rows mapping_rules start_number fallback_debit fallback_credit)
             output_dir config)
  = map (fun v => path_join output_dir ("voucher_" ++ number v ++ ".pdf")%string)
        (build_vouchers rows mapping_rules start_number fallback_debit fallback_credit)
  /\ NoDup (map fst (render_single_vouchers path_join
                       (build_vouchers rows mapping_rules start_number
                                       fallback_debit fallback_credit)
                       output_dir config)).
Proof.
  intros Hjoin.
  assert (E : forall vs,
             map fst (render_single_vouchers path_join vs output_dir config)
             = map (fun v => path_join output_dir ("voucher_" ++ number v ++ ".pdf")%string)
                   vs).
  { intros vs. unfold render_single_vouchers. rewrite map_map. apply map_ext.
    intros v. reflexivity. }
  split; [apply E|]. rewrite E.
  rewrite <- (map_map number
                (fun n => path_join output_dir ("voucher_" ++ n ++ ".pdf")%string)).
  apply NoDup_map_injective.
  - intros a b H. apply Hjoin in H. apply string_app_inv_head in H.
    now apply string_app_inv_tail in H.
  - rewrite build_vouchers_eq, vouchers_from_numbers. apply format_03d_seq_NoDup.
Qed.

(** X16. Every single-voucher document is one voucher drawn in the box that
    fills the page inside the margins, followed by the save; that box is
    the box of the summary layout with one voucher per page. *)
Theorem render_single_vouchers_box (vouchers : list Voucher) (output_dir : string)
    (config : Config) :
  map snd (render_single_vouchers path_join vouchers output_dir config)
  = map (fun v => draw_voucher v (config_margin config)
                    (297 * mm - config_margin config
                     - (297 * mm - 2 * config_margin config))
                    (210 * mm - 2 * config_margin config)
                    (297 * mm - 2 * config_margin config) config
                  ++ [save])
        vouchers
  /\ 297 * mm - config_margin config - (297 * mm - 2 * config_margin config)
     == config_margin config
  /\ 297 * mm - 2 * config_margin config == voucher_height 1 config
  /\ 210 * mm - 2 * config_margin config = voucher_width config
  /\ config_margin config == page_top 1 config.
Proof.
  split.
  { unfold render_single_vouchers. rewrite map_map. apply map_ext. intros v. reflexivity. }
  assert (H1 := voucher_height_times 1 config ltac:(discriminate)).
  change (inject_Z 1) with 1 in H1.
  split; [ring|].
  assert (Hh : 297 * mm - 2 * config_margin config == voucher_height 1 config).
  { generalize dependent (voucher_height 1 config). intros h H1.
    generalize (config_margin config) (config_spacing config) H1. clear H1.
    intros m s. generalize mm. intros u H1. lra. }
  split; [exact Hh|]. split; [reflexivity|].
  unfold page_top. cbn [A4]. rewrite <- Hh. ring.
Qed.

(** X17. A summary document of at least one voucher has exactly
    [(len - 1) / vouchers_per_page] page breaks, that is
    [ceil(len / vouchers_per_page)] pages, and its last voucher is on its
    last page: no page is left empty. *)
Theorem render_calls_page_count (vouchers : list Voucher) (vouchers_per_page : Z)
    (config : Config) :
  (0 < vouchers_per_page)%Z ->
  vouchers <> [] ->
  exists calls,
    render_calls vouchers vouchers_per_page config = Ok calls
    /\ Z.of_nat (List.length (page_breaks 0 calls))
       = ((Z.of_nat (List.length vouchers) - 1) / vouchers_per_page)%Z
    /\ exists v box,
         nth_error (placements 0 calls) (List.length vouchers - 1)
         = Some (v, Z.of_nat (List.length (page_breaks 0 calls)), box).
Proof.
  intros Hn Hne. unfold render_calls.
  destruct (Z.eqb_spec vouchers_per_page 0) as [E|_]; [lia|].
  eexists. split; [reflexivity|]. rewrite placements_app, page_breaks_app.
  assert (Hlen : (List.length vouchers - 1 < List.length vouchers)%nat)
    by (destruct vouchers; [congruence | simpl; lia]).
  destruct (nth_error vouchers (List.length vouchers - 1)) as [v|] eqn:Ev;
    [|apply nth_error_None in Ev; lia].
  destruct (render_loop_placement vouchers_per_page (Z.of_nat (List.length vouchers))
              (config_margin config) (page_top vouchers_per_page config)
              (voucher_width config) (voucher_height vouchers_per_page config)
              (config_spacing config)
              vouchers Hn 0%Z 0%Z (page_top vouchers_per_page config)
              (List.length vouchers - 1) v)
    as [y [H1 _]]; [lia | rewrite Z.mod_0_l by lia; change (inject_Z 0) with 0; ring
                    | exact Ev |].
  rewrite Z.div_0_l, !Z.add_0_l, Z.sub_0_r in H1 by lia.
  assert (Hp := render_loop_last_page _ _ _ _ _ _ _ vouchers 0%Z 0%Z _ _ _ _
                  (eq_sym (Z.add_0_l _)) H1).
  rewrite Z.add_0_l in Hp.
  assert (Hidx : Z.of_nat (List.length vouchers - 1)
                 = (Z.of_nat (List.length vouchers) - 1)%Z) by lia.
  rewrite Hidx in Hp. split; [now rewrite <- Hp|].
  exists v, (config_margin config, y, voucher_width config,
             voucher_height vouchers_per_page config).
  rewrite H1. rewrite Hidx. now rewrite Hp.
Qed.

End LayoutFurther.




Section BoxesFit.
Variables (vouchers : list Voucher) (vouchers_per_page : Z) (config : Config).

Let margin := config_margin config.
Let spacing := config_spacing config.
Let height := voucher_height vouchers_per_page config.


End BoxesFit.

Section TableFurther.
Context {lib : PyLib}.

(** X19. The four columns of the table take 25 %, 38 %, 18.5 % and 18.5 %
    of its width, in that order, and the table is as wide as the box less
    6 mm on either side. *)
Theorem draw_voucher_column_widths (voucher : Voucher) (x y width height : Q)
    (config : Config) :
  Forall2 Qeq
    (column_widths (draw_voucher voucher x y width height config))
    [ (width - mm_to_pt 12) * 0.25; (width - mm_to_pt 12) * 0.38;
      (width - mm_to_pt 12) * 0.185; (width - mm_to_pt 12) * 0.185 ]
  /\ exists bottom table_height,
       table_frames (draw_voucher voucher x y width height config)
       = [(x + mm_to_pt 6, bottom, width - 2 * mm_to_pt 6, table_height)].
Proof.
  split.
  - unfold column_widths.
    change (table_frames (draw_voucher voucher x y width height config))
      with [(table_left x, table_bottom y height, table_width width, table_height)].
    rewrite draw_voucher_column_separators. cbn [app steps].
    unfold amount_width, summary_width, account_width, table_left, table_width, padding,
      mm_to_pt.
    repeat (constructor; [field|]). constructor.
  - exists (table_bottom y height), table_height. reflexivity.
Qed.

(** X20. The five signature labels are the last things drawn, all on one
    baseline 8 mm above the bottom of the box, and the bottom edge of the
    table is above that baseline by the height of the box less 68 mm: the
    table and the signature line keep apart only in a box higher than
    68 mm. *)
Theorem draw_voucher_signature_line (voucher : Voucher) (x y width height : Q)
    (config : Config) :
  after_last_font (draw_voucher voucher x y width height config)
  = map (fun '(i, label) =>
           drawString (table_left x + table_width width / 5 * inject_Z i)
                      (y + padding + mm_to_pt 2)
                      (label ++ "：________________")%string)
        (enumerate_from 0%Z positions)
  /\ Forall (fun b => b == y + mm_to_pt 8
                      /\ table_bottom y height - b == height - mm_to_pt 68)
            (baselines (after_last_font (draw_voucher voucher x y width height config))).
Proof.
  assert (H : after_last_font (draw_voucher voucher x y width height config)
              = map (fun '(i, label) =>
                       drawString (table_left x + table_width width / 5 * inject_Z i)
                                  (y + padding + mm_to_pt 2)
                                  (label ++ "：________________")%string)
                    (enumerate_from 0%Z positions)) by reflexivity.
  split; [exact H|]. rewrite H. cbn [enumerate_from positions map baselines flat_map app].
  unfold table_bottom, table_top, info_y, title_y, table_height, line_height, padding,
    mm_to_pt.
  repeat constructor; ring.
Qed.

End TableFurther.

(** X21. With the default margin (12 mm) and spacing (6 mm), the bottom
    edge of the table is above the signature line exactly when at most
    three vouchers go on a page. *)
Theorem signature_line_clear_iff (vouchers_per_page : Z) (y : Q) :
  (0 < vouchers_per_page)%Z ->
  (y + mm_to_pt 8
   < table_bottom y (voucher_height vouchers_per_page (mkConfig None None None))
   <-> (vouchers_per_page <= 3)%Z).
Proof.
  intros Hn.
  assert (Ht := voucher_height_times vouchers_per_page (mkConfig None None None)
                  ltac:(lia)).
  assert (Hpos : 0 < inject_Z vouchers_per_page)
    by (change 0 with (inject_Z 0); rewrite <- Zlt_Qlt; exact Hn).
  unfold table_bottom, table_top, info_y, title_y, table_height, line_height, padding.
  unfold config_margin, config_spacing in Ht. cbn [margin_mm spacing_mm get_default] in Ht.
  unfold mm_to_pt in *.
  assert (Hmm : mm == 360 # 127) by reflexivity.
  rewrite Hmm in *.
  revert Ht.
  generalize (voucher_height vouchers_per_page (mkConfig None None None)).
  intros h Ht.
  assert (Hiff : 68 * (360 # 127) < h <-> inject_Z vouchers_per_page * 74 < 279).
  { revert Ht Hpos. generalize (inject_Z vouchers_per_page). intros n Ht Hpos.
    split; intros H.
    - assert (P : 0 < (h - 68 * (360 # 127)) * n) by (apply Qmult_lt_0_compat; lra).
      nra.
    - destruct (Qlt_le_dec (68 * (360 # 127)) h) as [Hlt|Hle]; [exact Hlt|].
      exfalso.
      assert (P : 0 <= (68 * (360 # 127) - h) * n) by (apply Qmult_le_0_compat; lra).
      nra. }
  assert (Hz : inject_Z vouchers_per_page * 74 < 279 <-> (vouchers_per_page <= 3)%Z).
  { change 74 with (inject_Z 74). change 279 with (inject_Z 279).
    rewrite <- inject_Z_mult, <- Zlt_Qlt. lia. }
  rewrite <- Hz, <- Hiff. split; intros H; lra.
Qed.

(* ================================================================== *)
(** * Properties of [main] *)

Section MainProperties.
Context {lib : PyLib}.
Variables (path_join : string -> string -> string) (path_dirname : string -> string).

Lemma parse_csv_flag (df : DataFrame) (rows : list TransactionRow.t) (filter_zero : bool) :
  parse_csv df false = Ok rows ->
  parse_csv df filter_zero = Ok (if filter_zero then filter nonzero_row rows else rows).
Proof.
  rewrite !parse_csv_eq. destruct (resolved df); [|discriminate].
  destruct (apply_each parse_date _); simpl; [|discriminate].
  intros H. injection H as <-. now destruct filter_zero.
Qed.

Lemma build_vouchers_flag (rows : list TransactionRow.t) (filter_zero : bool)
    (mapping_rules : list Rule.t) (start_number : Z) (fd fc : string) :
  build_vouchers (if filter_zero then filter nonzero_row rows else rows)
                 mapping_rules start_number fd fc
  = build_vouchers rows mapping_rules start_number fd fc.
Proof.
  destruct filter_zero; [|reflexivity].
  rewrite !build_vouchers_eq. apply vouchers_from_filter.
Qed.

Lemma build_vouchers_nil (rows : list TransactionRow.t) (mapping_rules : list Rule.t)
    (start_number : Z) (fd fc : string) :
  build_vouchers rows mapping_rules start_number fd fc = []
  <-> Forall (fun row => nonzero_row row = false) rows.
Proof.
  rewrite build_vouchers_eq. split.
  - intros H. apply (f_equal (@List.length Voucher)) in H.
    rewrite vouchers_from_length in H. simpl in H.
    apply Forall_forall. intros row Hin.
    destruct (nonzero_row row) eqn:E; [|reflexivity]. exfalso.
    assert (Hf : In row (filter nonzero_row rows)) by (apply filter_In; auto).
    destruct (filter nonzero_row rows); [contradiction | discriminate].
  - intros H. apply length_zero_iff_nil. rewrite vouchers_from_length.
    apply length_zero_iff_nil.
    induction H as [|row rows Hrow _ IH]; simpl; [reflexivity|]. now rewrite Hrow.
Qed.

(** X22. What [main] prints and saves, and the error when it ends with
    one, do not depend on the [filter_zero_amounts] entry of the
    configuration. *)
Theorem main_ignores_zero_filter (args : Args.t) (mapping_rules : list Rule.t)
    (df : DataFrame) (start_number vouchers_per_page : option Z)
    (filter_a filter_b : option bool) (fallback_debit fallback_credit : option string)
    (layout : Config) :
  main path_join path_dirname args
       (Settings.mk start_number vouchers_per_page filter_a
                    fallback_debit fallback_credit layout)
       mapping_rules df
  = main path_join path_dirname args
         (Settings.mk start_number vouchers_per_page filter_b
                      fallback_debit fallback_credit layout)
         mapping_rules df.
Proof.
  unfold main. cbn [Settings.start_number Settings.vouchers_per_page
                    Settings.filter_zero_amounts Settings.fallback_debit_account
                    Settings.fallback_credit_account Settings.layout].
  destruct (parse_csv df false) as [rows|e] eqn:E.
  - rewrite !(parse_csv_flag df rows _ E). cbn [bind].
    now rewrite !build_vouchers_flag.
  - assert (Hany : forall b, parse_csv df b = Raise e).
    { intros b. rewrite parse_csv_eq in *. destruct (resolved df); [|exact E].
      destruct (apply_each parse_date _); simpl in *; [discriminate | exact E]. }
    now rewrite !Hany.
Qed.

(** X23. When the statement loads, [main] prints its notice that there is
    nothing to generate, and does nothing else, exactly when no row of the
    statement has a non-zero amount; the layout settings are not looked at
    then, so that even 0 vouchers per page is no error. *)
Theorem main_nothing_to_do (args : Args.t) (config : Settings.t)
    (mapping_rules : list Rule.t) (df : DataFrame) (rows : list TransactionRow.t) :
  parse_csv df false = Ok rows ->
  (main path_join path_dirname args config mapping_rules df
   = Ok [Printed no_vouchers_message]
   <-> Forall (fun row => nonzero_row row = false) rows).
Proof.
  intros E. unfold main. rewrite (parse_csv_flag df rows _ E). cbn [bind].
  rewrite build_vouchers_flag.
  match goal with
  | |- context [build_vouchers rows ?r ?s ?d ?c] =>
      rewrite <- (build_vouchers_nil rows r s d c);
      destruct (build_vouchers rows r s d c) as [|v vs]
  end.
  - split; reflexivity.
  - split; [|discriminate].
    destruct (render_vouchers_to_pdf (v :: vs) _ _); cbn [bind]; [|discriminate].
    destruct (Args.single args); discriminate.
Qed.

End MainProperties.

(* ================================================================== *)
(** * The further properties on concrete inputs *)

(** Voucher 42 is numbered [042]. *)
Lemma format_03d_width_witness : String.length (format_03d 42) = 3%nat.
Proof. apply (format_03d_width 42). lia. Defined.

(** A rule for [zz] among the rules for a description without [zz]. *)
Lemma map_entry_unmatched_rule_ignored_witness :
  map_entry_to_accounts "abc"
    ([Rule.mk (Some (PyStr "x")) None None]
     ++ Rule.mk (Some (PyStr "zz")) (Some "A") (Some "B")
     :: [Rule.mk (Some (PyStr "b")) (Some "P") None]) "X" "Y"
  = map_entry_to_accounts "abc"
    ([Rule.mk (Some (PyStr "x")) None None]
     ++ [Rule.mk (Some (PyStr "b")) (Some "P") None]) "X" "Y".
Proof.
  apply (map_entry_unmatched_rule_ignored "abc"
           (Rule.mk (Some (PyStr "zz")) (Some "A") (Some "B"))).
  intros kw Hkw Hsub. injection Hkw as <-.
  apply str_in_iff in Hsub. discriminate.
Defined.

(** The second row has a date nothing reads, the third none: the load ends
    with the parse error of the second. *)
Lemma parse_csv_first_unreadable_date_witness :
  parse_csv (lib := Sample.lib) SampleFiles.statement_with_bad_dates true
  = Raise DateParseError.
Proof.
  apply (parse_csv_first_unreadable_date (lib := Sample.lib)
           SampleFiles.statement_with_bad_dates true
           (firstn 1 (selected (lib := Sample.lib) SampleFiles.statement_with_bad_dates))
           (Selected.mk (Str "someday") (Str "工资") (Some (Str "0")) None)
           (skipn 2 (selected (lib := Sample.lib) SampleFiles.statement_with_bad_dates))).
  - reflexivity.
  - reflexivity.
  - constructor; [|constructor].
    intros [H | (_ & H & _)]; discriminate.
  - reflexivity.
Defined.

(** The vouchers of the sample statement. *)
Lemma load_vouchers_amounts_positive_witness :
  Forall (fun v => float_pos (amount v) = true) Sample.vouchers.
Proof.
  apply (load_vouchers_amounts_positive (lib := Sample.lib) Sample.statement true
           Sample.rules 1 "其他应收款" "银行存款").
  vm_compute. reflexivity.
Defined.

(** The single-voucher documents of a run, under [output/single]. *)
Lemma render_single_vouchers_paths_distinct_witness :
  NoDup (map fst (render_single_vouchers (lib := Sample.lib) SampleFiles.join
                    (build_vouchers (lib := Sample.lib) Sample.rows Sample.rules 1 "D" "C")
                    "output/single" Sample.config)).
Proof.
  apply (render_single_vouchers_paths_distinct (lib := Sample.lib) SampleFiles.join
           Sample.rows Sample.rules 1 "D" "C" "output/single" Sample.config).
  intros a b H. exact (string_app_inv_head "output/single/" a b H).
Defined.

(** Four vouchers, three per page: one page break, two pages. *)
Lemma render_calls_page_count_witness :
  exists calls,
    render_calls Sample.vouchers 3 Sample.config = Ok calls
    /\ Z.of_nat (List.length (page_breaks 0 calls)) = 1%Z.
Proof.
  destruct (render_calls_page_count Sample.vouchers 3 Sample.config eq_refl
              ltac:(discriminate))
    as (calls & Hcalls & Hbreaks & _).
  exists calls. split; [exact Hcalls | exact Hbreaks].
Defined.


(** Four vouchers per page do not keep the table off the signature line. *)
Lemma signature_line_clear_iff_witness :
  ~ (0 + mm_to_pt 8 < table_bottom 0 (voucher_height 4 (mkConfig None None None)))%Q.
Proof.
  intros H. apply (signature_line_clear_iff 4 0 eq_refl) in H. lia.
Defined.

(** A statement without amounts, a configuration with 0 vouchers per page:
    the notice and nothing else. *)
Lemma main_nothing_to_do_witness :
  main (lib := Sample.lib) SampleFiles.join SampleFiles.dirname
       SampleFiles.args SampleFiles.settings Sample.rules
       SampleFiles.statement_without_amounts
  = Ok [Printed no_vouchers_message].
Proof.
  eapply (main_nothing_to_do (lib := Sample.lib)).
  - vm_compute. reflexivity.
  - repeat constructor.
Defined.
